(** * gpusched: the daemon core, embedded from the Go sources

    The development follows the packages of the repository:
    - [Go]: the few pieces of the Go runtime the daemon relies on
      (64-bit integers, [time.Duration], [fmt] verbs, errors);
    - [protocol]: the wire types of [internal/protocol/protocol.go];
    - [checkpoint]: the [cuda-checkpoint] adapter of
      [internal/checkpoint/checkpoint.go];
    - [daemon]: the registry, its lifecycle operations, the request
      router and the connection handler ([internal/daemon]).

    Everything the daemon does to the outside (signals, tool invocations,
    file operations, clock and monitoring queries) is recorded in a trace
    of [Effect]s, oldest first.  What the outside answers is given by a
    [Host], whose answers may depend on the whole trace so far. *)

From Stdlib Require Import ZArith String Ascii List DecimalString Permutation Sorted.
From stdpp Require Import base gmap strings list fin_maps sorting.

Local Open Scope string_scope.
Local Open Scope list_scope.
Local Open Scope Z_scope.

(** ** Go runtime *)

Module Go.

(** [int] and [int64] are 64 bits wide on the build target (amd64);
    arithmetic wraps around. *)
Definition wrap64 (z : Z) : Z := (z + 2 ^ 63) mod 2 ^ 64 - 2 ^ 63.
Definition add64 (a b : Z) : Z := wrap64 (a + b).
Definition incr (a : Z) : Z := add64 a 1.

(** Integer division truncates toward zero and panics on a zero
    divisor: [None] stands for the run-time panic. *)
Definition div64 (a b : Z) : option Z :=
  if b =? 0 then None else Some (wrap64 (Z.quot a b)).

(** [time.Duration] counts nanoseconds; [Milliseconds] is the
    truncating quotient by 1e6. *)
Definition Milliseconds (d : Z) : Z := Z.quot d 1000000.

(** [%d] and [strconv.Itoa]. *)
Definition itoa (z : Z) : string := NilZero.string_of_int (Z.to_int z).

Fixpoint join (sep : string) (l : list string) : string :=
  match l with
  | [] => ""
  | [x] => x
  | x :: rest => x +:+ sep +:+ join sep rest
  end.

(** [%v] of a [[]string]. *)
Definition sprint_strings (l : list string) : string := "[" +:+ join " " l +:+ "]".

Fixpoint has_prefix (p s : string) : bool :=
  match p, s with
  | EmptyString, _ => true
  | String a p', String b s' => if Ascii.eqb a b then has_prefix p' s' else false
  | String _ _, EmptyString => false
  end.

(** The last [n] elements of a slice: [l[len(l)-n:]]. *)
Definition last_n {A} (n : nat) (l : list A) : list A := drop (length l - n)%nat l.

End Go.

(** ** Wire types (package protocol) *)

Module protocol.

Inductive ProcessState := StateActive | StateFrozen | StateHibernated | StateDead.

Definition ProcessState_string (s : ProcessState) : string :=
  match s with
  | StateActive => "active"
  | StateFrozen => "frozen"
  | StateHibernated => "hibernated"
  | StateDead => "dead"
  end.

Definition state_eqb (a b : ProcessState) : bool :=
  match a, b with
  | StateActive, StateActive | StateFrozen, StateFrozen
  | StateHibernated, StateHibernated | StateDead, StateDead => true
  | _, _ => false
  end.

(** [Tier] is a string type; its declared constants are the three
    below, and the zero value is the empty string. *)
Definition Tier := string.
Definition TierGPU : Tier := "gpu".
Definition TierRAM : Tier := "ram".
Definition TierDisk : Tier := "disk".

Record Request := { Method : string; Params : string }.

Record Event := {
  Time : Z; Type_ : string; Process : string; Detail : string; Duration : Z }.

Record RunParams := { rp_Name : string; rp_Cmd : list string; rp_Dir : string; rp_GPU : Z }.
Record NameParams := { np_Name : string }.
Record MigrateParams := { mp_Name : string; mp_GPU : Z }.
Record LogsParams := { lp_Name : string; lp_Lines : Z; lp_Follow : bool }.

Record GPUInfo := {
  Index : Z; gi_Name : string; MemTotal : Z; MemUsed : Z; MemFree : Z }.

Record ProcessInfo := {
  pi_Name : string; pi_PID : Z; pi_State : ProcessState; pi_GPU : Z;
  pi_MemMB : Z; pi_Age : string; pi_Started : Z; pi_Tier : Tier }.

Record MemoryInfo := {
  HostRAMTotalMB : Z; HostRAMFreeMB : Z; HostRAMBudgetMB : Z;
  SnapshotsMB : Z; DiskUsedMB : Z; DiskBudgetMB : Z }.

Record Metrics := {
  Requests : Z; CacheHits : Z; Freezes : Z; Thaws : Z; Forks : Z;
  Migrations : Z; Hibernations : Z; ColdStarts : Z;
  AvgFreezeMs : Z; AvgThawMs : Z }.

Definition Metrics_zero : Metrics :=
  {| Requests := 0; CacheHits := 0; Freezes := 0; Thaws := 0; Forks := 0;
     Migrations := 0; Hibernations := 0; ColdStarts := 0;
     AvgFreezeMs := 0; AvgThawMs := 0 |}.

Record Capabilities := {
  CUDACheckpoint : bool; CRIU : bool; DriverVersion : string }.

Record StatusResult := {
  GPUs : list GPUInfo; Processes : list ProcessInfo; Memory : MemoryInfo;
  sr_Metrics : Metrics; Events : list Event; Caps : Capabilities }.

Record RunResult := { rr_Name : string; rr_PID : Z }.

Record FreezeResult := {
  fr_Name : string; fr_DurationMs : Z; fr_Tier : Tier; fr_MemMB : Z }.

Record ThawResult := {
  tr_Name : string; tr_DurationMs : Z; tr_FromTier : Tier; tr_MemMB : Z }.

Record MigrateResult := { mr_Name : string; FromGPU : Z; ToGPU : Z }.

Record LogsResult := { Lines : list string }.

(** The value handed to [OkResponse]; [json.Marshal] encodes it field by
    field under the struct tags, so the payload is kept as the value. *)
Inductive Payload :=
| PRun (r : RunResult)
| PFreeze (r : FreezeResult)
| PThaw (r : ThawResult)
| PString (s : string)
| PMigrate (r : MigrateResult)
| PStatus (r : StatusResult)
| PLogs (r : LogsResult).

Record Response := { OK : bool; Result : option Payload; Error : string }.

Definition OkResponse (result : Payload) : Response :=
  {| OK := true; Result := Some result; Error := "" |}.

Definition ErrResponse (msg : string) : Response :=
  {| OK := false; Result := None; Error := msg |}.

End protocol.

(** ** Effects and the host *)

Inductive Signal := SIGSTOP | SIGCONT | SIGTERM | SIGKILL.

(** What is written to a client connection by [writeJSON]. *)
Inductive Wire :=
| WResponse (r : protocol.Response)
| WEvent (e : protocol.Event).

Inductive Effect :=
| SendSignal (pid : Z) (sig : Signal)           (* syscall.Kill *)
| Exec (binary : string) (args : list string)   (* exec.Command(..).CombinedOutput *)
| GPUMem (pid : Z)                              (* gpu.ProcessGPUMem *)
| QueryGPUs                                     (* gpu.QueryGPUs *)
| HostMem                                       (* gpu.HostMemInfo *)
| Driver                                        (* gpu.DriverVersion *)
| Now                                           (* time.Now *)
| MkdirAll (path : string)                      (* os.MkdirAll *)
| Create (path : string)                        (* os.Create *)
| Close (path : string)                         (* File.Close *)
| ReadFile (path : string)                      (* os.ReadFile *)
| Start (argv : list string) (dir : string) (env : list string) (* Cmd.Start *)
| GraceKill (pid : Z)                           (* go func: sleep 3s, then SIGKILL *)
| ConnWrite (v : Wire).                         (* conn.Write of one JSON line *)

Definition Trace := list Effect.

(** The answers of the operating system, the tools and the libraries.
    Each answer may depend on everything that happened before. *)
Class Host := {
  (** [CombinedOutput] of the tool: the elapsed time in ns and, when the
      tool fails, its trimmed output and the text of the exit error. *)
  host_exec : Trace -> string -> list string -> Z * option (string * string);
  host_gpu_mem : Trace -> Z -> Z;
  host_query_gpus : Trace -> list protocol.GPUInfo;
  host_mem_info : Trace -> Z * Z;
  host_driver : Trace -> string;
  host_now : Trace -> Z;
  (** [os.Create]: the error text on failure. *)
  host_create : Trace -> string -> option string;
  (** [os.ReadFile]: the content, or the error text. *)
  host_read_file : Trace -> string -> string + string;
  (** [Cmd.Start]: the pid of the child, or the error text. *)
  host_start : Trace -> list string -> string -> list string -> Z + string;
  host_environ : Trace -> list string;
  host_getuid : Trace -> Z;
  (** The site-packages directories found under the home directories. *)
  host_site_packages : Trace -> list string;
  (** [exec.LookPath] and [os.Stat] at daemon start. *)
  host_look_path : string -> option string;
  host_stat : string -> bool;
  (** Library functions that are not part of the repository. *)
  quote : string -> string;                        (* the [%q] verb *)
  filepath_join : string -> string -> string;      (* filepath.Join *)
  (** [formatDuration] goes through [float64]; it is kept abstract. *)
  formatDuration : Z -> string;
  (** [json.Unmarshal] into each parameter struct: the value, or the
      error text. *)
  json_request : string -> protocol.Request + string;
  json_run : string -> protocol.RunParams + string;
  json_name : string -> protocol.NameParams + string;
  json_migrate : string -> protocol.MigrateParams + string;
  json_logs : string -> protocol.LogsParams + string;
  (** The order in which a [range] over a map visits its entries: some
      order in which every entry occurs once. *)
  range_order : forall {A}, list A -> list A;
  range_order_perm : forall A (l : list A), Permutation (range_order l) l;
  (** [sort.Slice]: it rearranges the slice, and under a comparison of
      integer ranks the result is ordered by rank (ties in any order). *)
  sort_Slice : forall {A}, (A -> A -> bool) -> list A -> list A;
  sort_Slice_perm : forall A (less : A -> A -> bool) (l : list A),
    Permutation (sort_Slice less l) l;
  sort_Slice_sorted : forall A (rank : A -> Z) (l : list A),
    StronglySorted (fun a b => rank a <= rank b)
                   (sort_Slice (fun a b => rank a <? rank b) l);
}.

(** ** Errors

    One constructor per [fmt.Errorf] format of the sources; [Error_text]
    is the [Error()] string. *)

Inductive error :=
| NotFound (name : string)                (* process %q not found *)
| AlreadyExists (name : string)           (* process %q already exists *)
| EmptyCommand                            (* empty command *)
| WrongState (name : string) (st : protocol.ProcessState) (want : string)
                                          (* process %q is %s, not <want> *)
| CapabilityMissing                       (* cuda-checkpoint not available *)
| ToolFailure (action : string) (pid : Z) (out cause : string)
                                          (* cuda-checkpoint --%s pid=%d: %s (%w) *)
| OSError (text : string)                 (* an error of os or os/exec *)
| Wrapped (ctx : string) (e : error).     (* <ctx>: %w *)

Fixpoint Error_text `{Host} (e : error) : string :=
  match e with
  | NotFound name => "process " +:+ quote name +:+ " not found"
  | AlreadyExists name => "process " +:+ quote name +:+ " already exists"
  | EmptyCommand => "empty command"
  | WrongState name st want =>
      "process " +:+ quote name +:+ " is " +:+ protocol.ProcessState_string st
        +:+ ", not " +:+ want
  | CapabilityMissing => "cuda-checkpoint not available"
  | ToolFailure action pid out cause =>
      "cuda-checkpoint --" +:+ action +:+ " pid=" +:+ Go.itoa pid +:+ ": "
        +:+ out +:+ " (" +:+ cause +:+ ")"
  | OSError text => text
  | Wrapped ctx e' => ctx +:+ ": " +:+ Error_text e'
  end.

(** ** State monad over the trace *)

Definition W (A : Type) : Type := Trace -> A * Trace.

#[global] Instance W_ret : MRet W := fun A a tr => (a, tr).
#[global] Instance W_bind : MBind W :=
  fun A B f m tr => let '(a, tr') := m tr in f a tr'.

(** Perform an effect. *)
Definition perform (e : Effect) : W unit := fun tr => (tt, tr ++ [e]).

(** Perform an effect and read the host's answer, which is decided by the
    trace before the effect. *)
Definition ask {A} (e : Effect) (answer : Trace -> A) : W A :=
  fun tr => (answer tr, tr ++ [e]).

(** ** The cuda-checkpoint adapter (package checkpoint) *)

Module checkpoint.
Section Adapter.
Context `{Host}.

Record CUDA := { Binary : string; Available : bool }.

Definition NewCUDA : CUDA :=
  match host_look_path "cuda-checkpoint" with
  | Some path => {| Binary := path; Available := true |}
  | None =>
      match filter (fun p => host_stat p = true)
              ["/usr/bin/cuda-checkpoint"; "/usr/local/bin/cuda-checkpoint";
               "/usr/lib/nvidia/bin/cuda-checkpoint"] with
      | p :: _ => {| Binary := p; Available := true |}
      | [] => {| Binary := ""; Available := false |}
      end
  end.

Definition exec (c : CUDA) (action : string) (pid : Z) (extra : list string)
  : W (Z * option error) :=
  let args := ["--action"; action; "--pid"; Go.itoa pid] ++ extra in
  '(elapsed, failure) ← ask (Exec (Binary c) args)
                            (fun tr => host_exec tr (Binary c) args);
  match failure with
  | Some (out, cause) => mret (elapsed, Some (ToolFailure action pid out cause))
  | None => mret (elapsed, None)
  end.

Definition run (c : CUDA) (action : string) (pid : Z) : W (Z * option error) :=
  if negb (Available c) then mret (0, Some CapabilityMissing)
  else exec c action pid [].

Definition Lock (c : CUDA) (pid : Z) := run c "lock" pid.
Definition Checkpoint (c : CUDA) (pid : Z) := run c "checkpoint" pid.
Definition Restore (c : CUDA) (pid : Z) := run c "restore" pid.
Definition Unlock (c : CUDA) (pid : Z) := run c "unlock" pid.

Definition RestoreOnDevice (c : CUDA) (pid device : Z) : W (Z * option error) :=
  if negb (Available c) then mret (0, Some CapabilityMissing)
  else exec c "restore" pid ["--device"; Go.itoa device].

(** Freeze performs the full lock, checkpoint sequence. *)
Definition Freeze (c : CUDA) (pid : Z) : W (Z * option error) :=
  '(lockDur, err) ← Lock c pid;
  match err with
  | Some e => mret (lockDur, Some (Wrapped "lock" e))
  | None =>
      '(ckptDur, err) ← Checkpoint c pid;
      let total := Go.add64 lockDur ckptDur in
      match err with
      | Some e => _ ← Unlock c pid; mret (total, Some (Wrapped "checkpoint" e))
      | None => mret (total, None)
      end
  end.

(** Thaw performs the full restore, unlock sequence. *)
Definition Thaw (c : CUDA) (pid : Z) : W (Z * option error) :=
  '(restDur, err) ← Restore c pid;
  match err with
  | Some e => mret (restDur, Some (Wrapped "restore" e))
  | None =>
      '(unlDur, err) ← Unlock c pid;
      let total := Go.add64 restDur unlDur in
      match err with
      | Some e => mret (total, Some (Wrapped "unlock" e))
      | None => mret (total, None)
      end
  end.

End Adapter.
End checkpoint.

(** ** The daemon (package daemon) *)

Module daemon.
Import protocol.

Record Proc := {
  Name : string;
  PID : Z;
  State : ProcessState;
  GPU : Z;
  MemMB : Z;
  Started : Z;
  (** The [exec.Cmd] pointer; one is allocated by each [Run]. *)
  Cmd : nat;
  LogPath : string;
  (** The open log file, named by its path; [None] is the nil file. *)
  logFile : option string }.

Definition set_State (v : ProcessState) (p : Proc) : Proc :=
  {| Name := Name p; PID := PID p; State := v; GPU := GPU p; MemMB := MemMB p;
     Started := Started p; Cmd := Cmd p; LogPath := LogPath p; logFile := logFile p |}.
Definition set_MemMB (v : Z) (p : Proc) : Proc :=
  {| Name := Name p; PID := PID p; State := State p; GPU := GPU p; MemMB := v;
     Started := Started p; Cmd := Cmd p; LogPath := LogPath p; logFile := logFile p |}.
Definition set_GPU (v : Z) (p : Proc) : Proc :=
  {| Name := Name p; PID := PID p; State := State p; GPU := v; MemMB := MemMB p;
     Started := Started p; Cmd := Cmd p; LogPath := LogPath p; logFile := logFile p |}.

Record Config := { RAMBudgetMB : Z; LogDir : string }.

(** A subscriber channel ([make(chan protocol.Event, 64)]) with the
    events buffered in it. *)
Record Chan := { chan_id : nat; buffer : list Event }.

Record Daemon := {
  procs : gmap string Proc;
  events : list Event;
  metrics : Metrics;
  cuda : checkpoint.CUDA;
  cfg : Config;
  subs : list Chan;
  freezeTotalMs : Z;
  thawTotalMs : Z }.

Definition set_procs (v : gmap string Proc) (d : Daemon) : Daemon :=
  {| procs := v; events := events d; metrics := metrics d; cuda := cuda d;
     cfg := cfg d; subs := subs d; freezeTotalMs := freezeTotalMs d;
     thawTotalMs := thawTotalMs d |}.
Definition set_events (v : list Event) (d : Daemon) : Daemon :=
  {| procs := procs d; events := v; metrics := metrics d; cuda := cuda d;
     cfg := cfg d; subs := subs d; freezeTotalMs := freezeTotalMs d;
     thawTotalMs := thawTotalMs d |}.
Definition set_metrics (v : Metrics) (d : Daemon) : Daemon :=
  {| procs := procs d; events := events d; metrics := v; cuda := cuda d;
     cfg := cfg d; subs := subs d; freezeTotalMs := freezeTotalMs d;
     thawTotalMs := thawTotalMs d |}.
Definition set_subs (v : list Chan) (d : Daemon) : Daemon :=
  {| procs := procs d; events := events d; metrics := metrics d; cuda := cuda d;
     cfg := cfg d; subs := v; freezeTotalMs := freezeTotalMs d;
     thawTotalMs := thawTotalMs d |}.
Definition set_freezeTotalMs (v : Z) (d : Daemon) : Daemon :=
  {| procs := procs d; events := events d; metrics := metrics d; cuda := cuda d;
     cfg := cfg d; subs := subs d; freezeTotalMs := v;
     thawTotalMs := thawTotalMs d |}.
Definition set_thawTotalMs (v : Z) (d : Daemon) : Daemon :=
  {| procs := procs d; events := events d; metrics := metrics d; cuda := cuda d;
     cfg := cfg d; subs := subs d; freezeTotalMs := freezeTotalMs d;
     thawTotalMs := v |}.

Definition set_Requests (v : Z) (m : Metrics) : Metrics :=
  {| Requests := v; CacheHits := CacheHits m; Freezes := Freezes m; Thaws := Thaws m;
     Forks := Forks m; Migrations := Migrations m; Hibernations := Hibernations m;
     ColdStarts := ColdStarts m; AvgFreezeMs := AvgFreezeMs m; AvgThawMs := AvgThawMs m |}.
Definition set_Freezes (v : Z) (m : Metrics) : Metrics :=
  {| Requests := Requests m; CacheHits := CacheHits m; Freezes := v; Thaws := Thaws m;
     Forks := Forks m; Migrations := Migrations m; Hibernations := Hibernations m;
     ColdStarts := ColdStarts m; AvgFreezeMs := AvgFreezeMs m; AvgThawMs := AvgThawMs m |}.
Definition set_Thaws (v : Z) (m : Metrics) : Metrics :=
  {| Requests := Requests m; CacheHits := CacheHits m; Freezes := Freezes m; Thaws := v;
     Forks := Forks m; Migrations := Migrations m; Hibernations := Hibernations m;
     ColdStarts := ColdStarts m; AvgFreezeMs := AvgFreezeMs m; AvgThawMs := AvgThawMs m |}.
Definition set_Migrations (v : Z) (m : Metrics) : Metrics :=
  {| Requests := Requests m; CacheHits := CacheHits m; Freezes := Freezes m; Thaws := Thaws m;
     Forks := Forks m; Migrations := v; Hibernations := Hibernations m;
     ColdStarts := ColdStarts m; AvgFreezeMs := AvgFreezeMs m; AvgThawMs := AvgThawMs m |}.
Definition set_ColdStarts (v : Z) (m : Metrics) : Metrics :=
  {| Requests := Requests m; CacheHits := CacheHits m; Freezes := Freezes m; Thaws := Thaws m;
     Forks := Forks m; Migrations := Migrations m; Hibernations := Hibernations m;
     ColdStarts := v; AvgFreezeMs := AvgFreezeMs m; AvgThawMs := AvgThawMs m |}.
Definition set_AvgFreezeMs (v : Z) (m : Metrics) : Metrics :=
  {| Requests := Requests m; CacheHits := CacheHits m; Freezes := Freezes m; Thaws := Thaws m;
     Forks := Forks m; Migrations := Migrations m; Hibernations := Hibernations m;
     ColdStarts := ColdStarts m; AvgFreezeMs := v; AvgThawMs := AvgThawMs m |}.
Definition set_AvgThawMs (v : Z) (m : Metrics) : Metrics :=
  {| Requests := Requests m; CacheHits := CacheHits m; Freezes := Freezes m; Thaws := Thaws m;
     Forks := Forks m; Migrations := Migrations m; Hibernations := Hibernations m;
     ColdStarts := ColdStarts m; AvgFreezeMs := AvgFreezeMs m; AvgThawMs := v |}.

Definition set_Time (v : Z) (e : Event) : Event :=
  {| Time := v; Type_ := Type_ e; Process := Process e; Detail := Detail e;
     Duration := Duration e |}.

(** The whole system: the daemon's memory, the trace of its effects and
    the next free reference for the objects it allocates (commands and
    channels). *)
Record Sys := { dmn : Daemon; trace : Trace; next_ref : nat }.

(** How a call ends: with a value, with a Go error, or in a run-time
    panic. *)
Inductive Outcome (A : Type) :=
| Done (a : A)
| Failed (e : error)
| Panicked.
Arguments Done {A} a.
Arguments Failed {A} e.
Arguments Panicked {A}.

Definition D (A : Type) : Type := Sys -> Outcome A * Sys.

#[global] Instance D_ret : MRet D := fun A a s => (Done a, s).
#[global] Instance D_bind : MBind D :=
  fun A B f m s =>
    match m s with
    | (Done a, s') => f a s'
    | (Failed e, s') => (Failed e, s')
    | (Panicked, s') => (Panicked, s')
    end.

Definition fail {A} (e : error) : D A := fun s => (Failed e, s).
Definition panic {A} : D A := fun s => (Panicked, s).

Definition lift {A} (m : W A) : D A :=
  fun s => let '(a, tr) := m (trace s) in
           (Done a, {| dmn := dmn s; trace := tr; next_ref := next_ref s |}).

Definition getd : D Daemon := fun s => (Done (dmn s), s).

Definition modify (f : Daemon -> Daemon) : D unit :=
  fun s => (Done tt, {| dmn := f (dmn s); trace := trace s; next_ref := next_ref s |}).

Definition alloc : D nat :=
  fun s => (Done (next_ref s),
            {| dmn := dmn s; trace := trace s; next_ref := S (next_ref s) |}).

(** Writing through the pointer held in [d.procs[name]]. *)
Definition store (name : string) (p : Proc) : D unit :=
  modify (fun d => set_procs (<[name := p]> (procs d)) d).

Definition modify_metrics (f : Metrics -> Metrics) : D unit :=
  modify (fun d => set_metrics (f (metrics d)) d).

Section Operations.
Context `{Host}.

Definition kill (pid : Z) (sig : Signal) : D unit := lift (perform (SendSignal pid sig)).

Definition ProcessGPUMem (pid : Z) : D Z :=
  lift (ask (GPUMem pid) (fun tr => host_gpu_mem tr pid)).

Definition time_Now : D Z := lift (ask Now host_now).

(** [time.Since]: the difference saturates at the bounds of
    [time.Duration]. *)
Definition time_Since (t : Z) : D Z :=
  now ← time_Now;
  mret (Z.max (- 2 ^ 63) (Z.min (2 ^ 63 - 1) (now - t))).

(** The best-effort VRAM refresh: a reading that is not positive keeps
    the known footprint. *)
Definition refresh (mem : Z) (p : Proc) : Proc :=
  if 0 <? mem then set_MemMB mem p else p.

(** A non-blocking send: a full channel drops the event. *)
Definition send (e : Event) (ch : Chan) : Chan :=
  if (length (buffer ch) <? 64)%nat
  then {| chan_id := chan_id ch; buffer := buffer ch ++ [e] |}
  else ch.

Definition emit (e : Event) : D unit :=
  now ← time_Now;
  let e := set_Time now e in
  modify (fun d =>
    let evs := events d ++ [e] in
    let evs := if (1000 <? length evs)%nat then Go.last_n 500 evs else evs in
    set_subs (map (send e) (subs d)) (set_events evs d)).

Definition New (cfg : Config) : W Daemon :=
  let logDir := if String.eqb (LogDir cfg) "" then "/tmp/gpusched/logs" else LogDir cfg in
  budget ←
    (if RAMBudgetMB cfg =? 0
     then '(total, _) ← ask HostMem host_mem_info;
          mret (if 0 <? total
                then Go.wrap64 (Z.quot (Go.wrap64 (total * 80)) 100)
                else 64 * 1024)
     else mret (RAMBudgetMB cfg));
  perform (MkdirAll logDir);;
  mret {| procs := ∅; events := []; metrics := Metrics_zero;
          cuda := checkpoint.NewCUDA;
          cfg := {| RAMBudgetMB := budget; LogDir := logDir |};
          subs := []; freezeTotalMs := 0; thawTotalMs := 0 |}.

Fixpoint extend_PYTHONPATH (extra : string) (env : list string) : option (list string) :=
  match env with
  | [] => None
  | e :: rest =>
      if Go.has_prefix "PYTHONPATH=" e then Some ((e +:+ ":" +:+ extra) :: rest)
      else cons e <$> extend_PYTHONPATH extra rest
  end.

Definition appendPythonPath (env : list string) : W (list string) :=
  fun tr =>
    let extraPaths := host_site_packages tr in
    if (length extraPaths =? 0)%nat then (env, tr)
    else
      let extra := Go.join ":" extraPaths in
      match extend_PYTHONPATH extra env with
      | Some env' => (env', tr)
      | None => (env ++ ["PYTHONPATH=" +:+ extra], tr)
      end.

Definition Run (params : RunParams) : D RunResult :=
  d ← getd;
  let name := rp_Name params in
  match procs d !! name with
  | Some _ => fail (AlreadyExists name)
  | None =>
    if (length (rp_Cmd params) =? 0)%nat then fail EmptyCommand
    else
      let logPath := filepath_join (LogDir (cfg d)) (name +:+ ".log") in
      created ← lift (ask (Create logPath) (fun tr => host_create tr logPath));
      match created with
      | Some msg => fail (Wrapped "creating log" (OSError msg))
      | None =>
        cmd ← alloc;
        env ← lift (fun tr => (host_environ tr, tr));
        let env := env ++ ["GPUSCHED_MANAGED=1";
                           "CUDA_VISIBLE_DEVICES=" +:+ Go.itoa (rp_GPU params)] in
        uid ← lift (fun tr => (host_getuid tr, tr));
        env ← (if uid =? 0 then lift (appendPythonPath env) else mret env);
        started ← lift (ask (Start (rp_Cmd params) (rp_Dir params) env)
                            (fun tr => host_start tr (rp_Cmd params) (rp_Dir params) env));
        match started with
        | inr msg =>
            lift (perform (Close logPath));;
            fail (Wrapped "starting process" (OSError msg))
        | inl pid =>
            now ← time_Now;
            let p := {| Name := name; PID := pid; State := StateActive;
                        GPU := rp_GPU params; MemMB := 0; Started := now;
                        Cmd := cmd; LogPath := logPath; logFile := Some logPath |} in
            store name p;;
            modify_metrics (fun m => set_ColdStarts (Go.incr (ColdStarts m)) m);;
            emit {| Time := 0; Type_ := "run"; Process := name;
                    Detail := "pid=" +:+ Go.itoa pid +:+ " gpu=" +:+ Go.itoa (rp_GPU params)
                              +:+ " cmd=" +:+ Go.sprint_strings (rp_Cmd params);
                    Duration := 0 |};;
            mret {| rr_Name := name; rr_PID := pid |}
        end
      end
  end.

Definition Freeze (name : string) : D FreezeResult :=
  d ← getd;
  match procs d !! name with
  | None => fail (NotFound name)
  | Some p =>
    if negb (state_eqb (State p) StateActive)
    then fail (WrongState name (State p) "active")
    else if negb (checkpoint.Available (cuda d)) then fail CapabilityMissing
    else
      mem ← ProcessGPUMem (PID p);
      let p := refresh mem p in
      store name p;;
      '(dur, err) ← lift (checkpoint.Freeze (cuda d) (PID p));
      match err with
      | Some e => fail (Wrapped "cuda freeze" e)
      | None =>
        kill (PID p) SIGSTOP;;
        let p := set_State StateFrozen p in
        store name p;;
        modify_metrics (fun m => set_Freezes (Go.incr (Freezes m)) m);;
        modify (fun d => set_freezeTotalMs
                           (Go.add64 (freezeTotalMs d) (Go.Milliseconds dur)) d);;
        d ← getd;
        match Go.div64 (freezeTotalMs d) (Freezes (metrics d)) with
        | None => panic
        | Some avg =>
          modify_metrics (set_AvgFreezeMs avg);;
          emit {| Time := 0; Type_ := "freeze"; Process := name;
                  Duration := Go.Milliseconds dur;
                  Detail := "→ RAM (" +:+ Go.itoa (MemMB p) +:+ " MB)" |};;
          mret {| fr_Name := name; fr_DurationMs := Go.Milliseconds dur;
                  fr_Tier := ""; fr_MemMB := MemMB p |}
        end
      end
  end.

Definition Thaw (name : string) : D ThawResult :=
  d ← getd;
  match procs d !! name with
  | None => fail (NotFound name)
  | Some p =>
    if negb (state_eqb (State p) StateFrozen)
    then fail (WrongState name (State p) "frozen")
    else
      kill (PID p) SIGCONT;;
      '(dur, err) ← lift (checkpoint.Thaw (cuda d) (PID p));
      match err with
      | Some e =>
          kill (PID p) SIGSTOP;;
          fail (Wrapped "cuda thaw" e)
      | None =>
        let p := set_State StateActive p in
        store name p;;
        modify_metrics (fun m => set_Thaws (Go.incr (Thaws m)) m);;
        modify (fun d => set_thawTotalMs
                           (Go.add64 (thawTotalMs d) (Go.Milliseconds dur)) d);;
        d ← getd;
        match Go.div64 (thawTotalMs d) (Thaws (metrics d)) with
        | None => panic
        | Some avg =>
          modify_metrics (set_AvgThawMs avg);;
          emit {| Time := 0; Type_ := "thaw"; Process := Name p;
                  Duration := Go.Milliseconds dur;
                  Detail := "← RAM (" +:+ Go.itoa (MemMB p) +:+ " MB)" |};;
          mret {| tr_Name := Name p; tr_DurationMs := Go.Milliseconds dur;
                  tr_FromTier := ""; tr_MemMB := MemMB p |}
        end
      end
  end.

Definition close_log (p : Proc) : D unit :=
  match logFile p with
  | Some f => lift (perform (Close f))
  | None => mret tt
  end.

Definition Kill (name : string) : D unit :=
  d ← getd;
  match procs d !! name with
  | None => fail (NotFound name)
  | Some p =>
    (if state_eqb (State p) StateFrozen then kill (PID p) SIGCONT else mret tt);;
    kill (PID p) SIGTERM;;
    lift (perform (GraceKill (PID p)));;
    let p := set_State StateDead p in
    store name p;;
    close_log p;;
    emit {| Time := 0; Type_ := "kill"; Process := name; Detail := ""; Duration := 0 |};;
    modify (fun d => set_procs (delete name (procs d)) d)
  end.

Definition Migrate (params : MigrateParams) : D MigrateResult :=
  d ← getd;
  let name := mp_Name params in
  match procs d !! name with
  | None => fail (NotFound name)
  | Some p =>
    if negb (checkpoint.Available (cuda d)) then fail CapabilityMissing
    else
      let fromGPU := GPU p in
      p ← (if state_eqb (State p) StateActive
           then
             mem ← ProcessGPUMem (PID p);
             let p := refresh mem p in
             store name p;;
             '(_, err) ← lift (checkpoint.Freeze (cuda d) (PID p));
             match err with
             | Some e => fail (Wrapped "freeze for migrate" e)
             | None => kill (PID p) SIGSTOP;; mret p
             end
           else mret p);
      kill (PID p) SIGCONT;;
      '(dur, err) ← lift (checkpoint.RestoreOnDevice (cuda d) (PID p) (mp_GPU params));
      match err with
      | Some e => fail (Wrapped ("restore on gpu " +:+ Go.itoa (mp_GPU params)) e)
      | None =>
        '(_, err) ← lift (checkpoint.Unlock (cuda d) (PID p));
        match err with
        | Some e => fail (Wrapped "unlock after migrate" e)
        | None =>
          let p := set_GPU (mp_GPU params) (set_State StateActive p) in
          store name p;;
          modify_metrics (fun m => set_Migrations (Go.incr (Migrations m)) m);;
          emit {| Time := 0; Type_ := "migrate"; Process := name;
                  Duration := Go.Milliseconds dur;
                  Detail := "GPU " +:+ Go.itoa fromGPU +:+ " → GPU "
                            +:+ Go.itoa (mp_GPU params) |};;
          mret {| mr_Name := name; FromGPU := fromGPU; ToGPU := mp_GPU params |}
        end
      end
  end.


(** The comparison of [Status]: the rank of a state is looked up in a
    map that holds three of the four states; a missing key reads as the
    zero value. *)
Definition order : list (ProcessState * Z) :=
  [(StateActive, 0); (StateFrozen, 1); (StateDead, 2)].

Fixpoint order_at (m : list (ProcessState * Z)) (s : ProcessState) : Z :=
  match m with
  | [] => 0
  | (k, v) :: rest => if state_eqb k s then v else order_at rest s
  end.

Definition status_less (a b : ProcessInfo) : bool :=
  order_at order (pi_State a) <? order_at order (pi_State b).

Fixpoint status_loop (entries : list (string * Proc))
    (infos : list ProcessInfo) (snapshotsMB : Z) : D (list ProcessInfo * Z) :=
  match entries with
  | [] => mret (infos, snapshotsMB)
  | (name, p) :: rest =>
      p ← (if state_eqb (State p) StateActive
           then mem ← ProcessGPUMem (PID p);
                let p := refresh mem p in
                store name p;; mret p
           else mret p);
      let frozen := state_eqb (State p) StateFrozen in
      let tier := if frozen then TierRAM else TierGPU in
      let snapshotsMB := if frozen then Go.add64 snapshotsMB (MemMB p) else snapshotsMB in
      age ← time_Since (Started p);
      status_loop rest
        (infos ++ [{| pi_Name := Name p; pi_PID := PID p; pi_State := State p;
                      pi_GPU := GPU p; pi_MemMB := MemMB p;
                      pi_Age := formatDuration age; pi_Started := Started p;
                      pi_Tier := tier |}])
        snapshotsMB
  end.

Definition Status : D StatusResult :=
  gpus ← lift (ask QueryGPUs host_query_gpus);
  '(totalRAM, freeRAM) ← lift (ask HostMem host_mem_info);
  d ← getd;
  '(infos, snapshotsMB) ← status_loop (range_order (map_to_list (procs d))) [] 0;
  let infos := sort_Slice status_less infos in
  d ← getd;
  let recentEvents :=
    if (20 <? length (events d))%nat then Go.last_n 20 (events d) else events d in
  driver ← lift (ask Driver host_driver);
  mret {| GPUs := gpus; Processes := infos;
          Memory := {| HostRAMTotalMB := totalRAM; HostRAMFreeMB := freeRAM;
                       HostRAMBudgetMB := RAMBudgetMB (cfg d);
                       SnapshotsMB := snapshotsMB;
                       DiskUsedMB := 0; DiskBudgetMB := 0 |};
          sr_Metrics := metrics d; Events := recentEvents;
          Caps := {| CUDACheckpoint := checkpoint.Available (cuda d);
                     CRIU := false; DriverVersion := driver |} |}.

Fixpoint splitLines_from (line : string) (s : string) : list string :=
  match s with
  | EmptyString => if String.eqb line "" then [] else [line]
  | String c rest =>
      if Ascii.eqb c "010"%char then line :: splitLines_from "" rest
      else splitLines_from (line +:+ String c EmptyString) rest
  end.

Definition splitLines (s : string) : list string := splitLines_from "" s.

Definition Logs (name : string) (lines : Z) : D LogsResult :=
  d ← getd;
  match procs d !! name with
  | None => fail (NotFound name)
  | Some p =>
    data ← lift (ask (ReadFile (LogPath p)) (fun tr => host_read_file tr (LogPath p)));
    match data with
    | inr msg => fail (Wrapped "reading logs" (OSError msg))
    | inl content =>
      let allLines := splitLines content in
      let allLines :=
        if (0 <? lines) && (lines <? Z.of_nat (length allLines))
        then Go.last_n (Z.to_nat lines) allLines else allLines in
      mret {| Lines := allLines |}
    end
  end.

Definition Subscribe : D nat :=
  ch ← alloc;
  modify (fun d => set_subs (subs d ++ [{| chan_id := ch; buffer := [] |}]) d);;
  mret ch.

Fixpoint remove_chan (ch : nat) (l : list Chan) : list Chan :=
  match l with
  | [] => []
  | c :: rest => if Nat.eqb (chan_id c) ch then rest else c :: remove_chan ch rest
  end.

Definition Unsubscribe (ch : nat) : D unit :=
  modify (fun d => set_subs (remove_chan ch (subs d)) d).

(** The answer to a call of a registry method: the result, or the text
    of the error. *)
Definition reply {A} (payload : A -> Payload) (m : D A) : D Response :=
  fun s =>
    match m s with
    | (Done a, s') => (Done (OkResponse (payload a)), s')
    | (Failed e, s') => (Done (ErrResponse (Error_text e)), s')
    | (Panicked, s') => (Panicked, s')
    end.

Definition bad_params (msg : string) : D Response :=
  mret (ErrResponse ("bad params: " +:+ msg)).

Definition Handle (req : Request) : D Response :=
  modify_metrics (fun m => set_Requests (Go.incr (Requests m)) m);;
  let method := Method req in
  if String.eqb method "run" then
    match json_run (Params req) with
    | inr msg => bad_params msg
    | inl p => reply PRun (Run p)
    end
  else if String.eqb method "freeze" then
    match json_name (Params req) with
    | inr msg => bad_params msg
    | inl p => reply PFreeze (Freeze (np_Name p))
    end
  else if String.eqb method "thaw" then
    match json_name (Params req) with
    | inr msg => bad_params msg
    | inl p => reply PThaw (Thaw (np_Name p))
    end
  else if String.eqb method "kill" then
    match json_name (Params req) with
    | inr msg => bad_params msg
    | inl p => reply (fun _ => PString "ok") (Kill (np_Name p))
    end
  else if String.eqb method "migrate" then
    match json_migrate (Params req) with
    | inr msg => bad_params msg
    | inl p => reply PMigrate (Migrate p)
    end
  else if String.eqb method "status" then
    reply PStatus Status
  else if String.eqb method "logs" then
    match json_logs (Params req) with
    | inr msg => bad_params msg
    | inl p =>
        let lines := if lp_Lines p =? 0 then 50 else lp_Lines p in
        reply PLogs (Logs (lp_Name p) lines)
    end
  else mret (ErrResponse ("unknown method: " +:+ method)).

Fixpoint shutdown_loop (entries : list (string * Proc)) : D unit :=
  match entries with
  | [] => mret tt
  | (name, p) :: rest =>
      match State p with
      | StateActive => kill (PID p) SIGTERM
      | StateFrozen => kill (PID p) SIGCONT;; kill (PID p) SIGTERM
      | _ => mret tt
      end;;
      close_log p;;
      shutdown_loop rest
  end.

Definition Shutdown : D unit :=
  d ← getd;
  shutdown_loop (range_order (map_to_list (procs d)));;
  modify (set_subs []).

(** The exit watcher, once [cmd.Wait] has returned with [err]. *)
Definition monitorProcess (name : string) (err : option string) : D unit :=
  d ← getd;
  match procs d !! name with
  | None => mret tt
  | Some p =>
    if state_eqb (State p) StateDead then mret tt
    else
      let detail := match err with Some msg => msg | None => "exited" end in
      let p := set_State StateDead p in
      store name p;;
      close_log p;;
      emit {| Time := 0; Type_ := "exit"; Process := name; Detail := detail;
              Duration := 0 |}
  end.

(** One round of the VRAM sampler started by [Run] for the entry whose
    command is [cmd].  The sampler holds the entry itself: once [Kill]
    has unregistered it, it is Dead and the sampler stops. *)
Definition sample (name : string) (cmd : nat) : D unit :=
  d ← getd;
  match procs d !! name with
  | None => mret tt
  | Some p =>
    if negb (Nat.eqb (Cmd p) cmd) then mret tt
    else if negb (state_eqb (State p) StateActive) then mret tt
    else
      mem ← ProcessGPUMem (PID p);
      if 0 <? mem then store name (set_MemMB mem p) else mret tt
  end.

(** *** The connection handler (server.go) *)

Definition writeJSON (v : Wire) : D unit := lift (perform (ConnWrite v)).

(** [handleSubscribe] up to its event loop. *)
Definition handleSubscribe : D nat :=
  ch ← Subscribe;
  status ← Status;
  writeJSON (WResponse (OkResponse (PStatus status)));;
  mret ch.

(** One turn of the scanner loop of [handleConn], on one line. *)
Definition handleConn (line : string) : D unit :=
  match json_request line with
  | inr msg => writeJSON (WResponse (ErrResponse ("invalid json: " +:+ msg)))
  | inl req =>
      if String.eqb (Method req) "subscribe" then handleSubscribe;; mret tt
      else resp ← Handle req; writeJSON (WResponse resp)
  end.

(** One turn of the event loop of [handleSubscribe]: the next buffered
    event of the channel is written to the connection. *)
Fixpoint take_event (ch : nat) (l : list Chan) : option (Event * list Chan) :=
  match l with
  | [] => None
  | c :: rest =>
      if Nat.eqb (chan_id c) ch then
        match buffer c with
        | [] => None
        | e :: more => Some (e, {| chan_id := ch; buffer := more |} :: rest)
        end
      else
        '(e, rest') ← take_event ch rest; Some (e, c :: rest')
  end.

Definition forward (ch : nat) : D unit :=
  d ← getd;
  match take_event ch (subs d) with
  | None => mret tt
  | Some (e, subs') => modify (set_subs subs');; writeJSON (WEvent e)
  end.

(** *** The daemon as a transition system *)

Inductive Action :=
| Line (line : string)                        (* a client sends a line *)
| Exit (name : string) (err : option string)  (* a child is reaped *)
| Sample (name : string) (cmd : nat)          (* a sampler wakes up *)
| Forward (ch : nat)                          (* a subscriber is served *)
| Hangup (ch : nat)                           (* a subscriber goes away *)
| Stop.                                       (* SIGINT or SIGTERM *)

Definition step (a : Action) : D unit :=
  match a with
  | Line line => handleConn line
  | Exit name err => monitorProcess name err
  | Sample name cmd => sample name cmd
  | Forward ch => forward ch
  | Hangup ch => Unsubscribe ch
  | Stop => Shutdown
  end.

Definition boot (cfg : Config) : Sys :=
  let '(d, tr) := New cfg [] in {| dmn := d; trace := tr; next_ref := 0 |}.

(** The states the daemon can be in: a panic ends the program. *)
Inductive reachable : Sys -> Prop :=
| reachable_boot (cfg : Config) : reachable (boot cfg)
| reachable_step (a : Action) (s s' : Sys) :
    reachable s -> step a s = (Done tt, s') -> reachable s'.

End Operations.
End daemon.

(** ** A scripted host

    A host whose answers are fixed by a few parameters; the examples run
    the daemon against it. *)

Module script.
Import protocol.

Definition dquote : string := String "034"%char EmptyString.

(** The action of a tool invocation: the word after [--action]. *)
Definition action_of_args (args : list string) : string :=
  match args with
  | _ :: a :: _ => a
  | _ => ""
  end.

(** A merge sort that places [a] before [b] unless [less b a]. *)
Definition sort_by {A} (less : A -> A -> bool) (l : list A) : list A :=
  merge_sort (fun a b => less b a = false)
             (H := fun a b => decide (less b a = false)) l.

(** The words of a request line: the method, then the parameters. *)
Fixpoint split_space (s : string) : string * string :=
  match s with
  | EmptyString => ("", "")
  | String c rest =>
      if Ascii.eqb c " "%char then ("", rest)
      else let '(method, params) := split_space rest in (String c method, params)
  end.

(** [tool] says whether cuda-checkpoint is installed, [failing] lists
    the tool actions that fail, [clock0] is the clock at an empty trace
    (it advances by one with every effect) and [vram] is the reading of
    every VRAM query.  A request line is a method and, after a space, the
    name of a process, which is all there is to the parameters: a run
    starts [sleep 3600] on GPU 0, a migration goes to GPU 1. *)
Definition host (tool : bool) (failing : list string) (clock0 vram : Z) : Host.
Proof.
  refine {|
    host_exec := fun _ _ args =>
      (2000000,
       if existsb (String.eqb (action_of_args args)) failing
       then Some ("boom", "exit status 1") else None);
    host_gpu_mem := fun _ _ => vram;
    host_query_gpus := fun _ => [];
    host_mem_info := fun _ => (0, 0);
    host_driver := fun _ => "";
    host_now := fun tr => clock0 + Z.of_nat (length tr);
    host_create := fun _ _ => None;
    host_read_file := fun _ _ => inl "";
    host_start := fun _ _ _ _ => inl 4242;
    host_environ := fun _ => [];
    host_getuid := fun _ => 1000;
    host_site_packages := fun _ => [];
    host_look_path := fun _ =>
      if tool then Some "/usr/bin/cuda-checkpoint" else None;
    host_stat := fun _ => false;
    quote := fun s => dquote +:+ s +:+ dquote;
    filepath_join := fun dir file => dir +:+ "/" +:+ file;
    formatDuration := fun d => Go.itoa (Z.quot d 1000000000) +:+ "s";
    json_request := fun line =>
      inl {| Method := fst (split_space line); Params := snd (split_space line) |};
    json_run := fun name =>
      inl {| rp_Name := name; rp_Cmd := ["sleep"; "3600"]; rp_Dir := ""; rp_GPU := 0 |};
    json_name := fun name => inl {| np_Name := name |};
    json_migrate := fun name => inl {| mp_Name := name; mp_GPU := 1 |};
    json_logs := fun name => inl {| lp_Name := name; lp_Lines := 0; lp_Follow := false |};
    range_order := fun A l => l;
    range_order_perm := fun A l => Permutation_refl l;
    sort_Slice := @sort_by;
    sort_Slice_perm := _;
    sort_Slice_sorted := _ |}.
  { intros A less l. apply merge_sort_Permutation. }
  unfold sort_by.
  intros A rank l.
  assert (Htrans : Transitive (fun a b : A => (rank b <? rank a) = false))
    by (intros x y z; rewrite !Z.ltb_ge; lia).
  assert (Htotal : Total (fun a b : A => (rank b <? rank a) = false))
    by (intros x y; rewrite !Z.ltb_ge; lia).
  assert (Hmono : forall l' : list A,
             StronglySorted (fun a b : A => (rank b <? rank a) = false) l' ->
             StronglySorted (fun a b : A => rank a <= rank b) l').
  { intros l' Hs. induction Hs as [|a l'' Hs IH Hall]; constructor; [exact IH|].
    clear -Hall. induction Hall as [|b l3 Hb Hall IH]; constructor; [|exact IH].
    apply Z.ltb_ge in Hb. exact Hb. }
  apply Hmono. apply @StronglySorted_merge_sort; assumption.
Defined.

(** The host [h] with every log file holding [content]. *)
Definition with_log (h : Host) (content : string) : Host :=
  {| host_exec := @host_exec h;
     host_gpu_mem := @host_gpu_mem h;
     host_query_gpus := @host_query_gpus h;
     host_mem_info := @host_mem_info h;
     host_driver := @host_driver h;
     host_now := @host_now h;
     host_create := @host_create h;
     host_read_file := fun _ _ => inl content;
     host_start := @host_start h;
     host_environ := @host_environ h;
     host_getuid := @host_getuid h;
     host_site_packages := @host_site_packages h;
     host_look_path := @host_look_path h;
     host_stat := @host_stat h;
     quote := @quote h;
     filepath_join := @filepath_join h;
     formatDuration := @formatDuration h;
     json_request := @json_request h;
     json_run := @json_run h;
     json_name := @json_name h;
     json_migrate := @json_migrate h;
     json_logs := @json_logs h;
     range_order := @range_order h;
     range_order_perm := @range_order_perm h;
     sort_Slice := @sort_Slice h;
     sort_Slice_perm := @sort_Slice_perm h;
     sort_Slice_sorted := @sort_Slice_sorted h |}.

Definition config : daemon.Config :=
  {| daemon.RAMBudgetMB := 8192; daemon.LogDir := "/var/log/gpusched" |}.

(** The system after the given actions, when each of them returns. *)
Fixpoint serve `{Host} (actions : list daemon.Action) (s : daemon.Sys)
  : option daemon.Sys :=
  match actions with
  | [] => Some s
  | a :: rest =>
      match daemon.step a s with
      | (daemon.Done _, s') => serve rest s'
      | _ => None
      end
  end.

(** The system after the daemon has started and served the given
    actions in turn. *)
Definition after `{Host} (actions : list daemon.Action) : daemon.Sys :=
  default (daemon.boot config) (serve actions (daemon.boot config)).

(** A registry that holds the single entry [p] under its name, on a
    host with the tool installed. *)
Definition holding (p : daemon.Proc) : daemon.Sys :=
  {| daemon.dmn :=
       {| daemon.procs := {[ daemon.Name p := p ]};
          daemon.events := []; daemon.metrics := Metrics_zero;
          daemon.cuda := {| checkpoint.Binary := "/usr/bin/cuda-checkpoint";
                            checkpoint.Available := true |};
          daemon.cfg := config; daemon.subs := [];
          daemon.freezeTotalMs := 0; daemon.thawTotalMs := 0 |};
     daemon.trace := []; daemon.next_ref := 1 |}.

Definition entry (st : ProcessState) : daemon.Proc :=
  {| daemon.Name := "a"; daemon.PID := 4242; daemon.State := st; daemon.GPU := 0;
     daemon.MemMB := 300; daemon.Started := 7; daemon.Cmd := 0;
     daemon.LogPath := "/var/log/gpusched/a.log";
     daemon.logFile := Some "/var/log/gpusched/a.log" |}.

End script.

(** * Vocabulary of the properties *)

Module props.
Import protocol daemon.

(** The system after a registry method has only counted the request. *)
Definition counted (s : Sys) : Sys :=
  {| dmn := set_metrics (set_Requests (Go.incr (Requests (metrics (dmn s))))
                                      (metrics (dmn s))) (dmn s);
     trace := trace s; next_ref := next_ref s |}.

(** The trace entry of one invocation of the tool. *)
Definition invoke (c : checkpoint.CUDA) (action : string) (pid : Z) : Effect :=
  Exec (checkpoint.Binary c) ["--action"; action; "--pid"; Go.itoa pid].

(** Whether an error is, or wraps, a wrong-state error. *)
Fixpoint wrong_state (e : error) : bool :=
  match e with
  | WrongState _ _ _ => true
  | Wrapped _ e' => wrong_state e'
  | _ => false
  end.

(** Whether an effect belongs to the checkpoint step of Migrate: a lock
    or checkpoint invocation of the tool, or a STOP signal. *)
Definition checkpoint_step (e : Effect) : bool :=
  match e with
  | SendSignal _ SIGSTOP => true
  | Exec _ (_ :: action :: _) => String.eqb action "lock" || String.eqb action "checkpoint"
  | _ => false
  end.

(** No registry method touches the request counter, and none puts an
    entry into the Hibernated state: [tame] relates the system before
    and after such a call. *)
Definition no_hibernated (d : Daemon) : Prop :=
  map_Forall (fun _ p => State p <> StateHibernated) (procs d).






(** The truncated mean of [n] durations that sum to [total], as the
    daemon computes it; it is [0] before the first one. *)
Definition mean (total n : Z) : Z :=
  if n =? 0 then 0 else Go.wrap64 (Z.quot total n).

(** What the daemon's memory always satisfies: every entry is registered
    under its own name, the event ring holds at most 1000 events, no
    subscriber channel holds more than its capacity of 64 events, and the
    two averages of the metrics are the means of the durations summed so
    far. *)
Definition well_formed (d : Daemon) : Prop :=
  map_Forall (fun name p => Name p = name) (procs d)
  /\ (length (events d) <= 1000)%nat
  /\ Forall (fun c => (length (buffer c) <= 64)%nat) (subs d)
  /\ AvgFreezeMs (metrics d) = mean (freezeTotalMs d) (Freezes (metrics d))
  /\ AvgThawMs (metrics d) = mean (thawTotalMs d) (Thaws (metrics d)).

(** A line of the status snapshot reports an entry: name, state, pid,
    GPU and start time are the entry's, and the tier is [ram] for a Frozen
    entry and [gpu] for any other. *)
Definition reports (p : Proc) (i : ProcessInfo) : Prop :=
  pi_Name i = Name p /\ pi_State i = State p /\ pi_PID i = PID p
  /\ pi_GPU i = GPU p /\ pi_Started i = Started p
  /\ pi_Tier i = (if state_eqb (State p) StateFrozen then TierRAM else TierGPU).

(** Lines put back together, each followed by a line feed. *)
Fixpoint unlines (l : list string) : string :=
  match l with
  | [] => ""
  | x :: rest => x +:+ String "010"%char (unlines rest)
  end.

Fixpoint has_newline (s : string) : bool :=
  match s with
  | EmptyString => false
  | String c rest => Ascii.eqb c "010"%char || has_newline rest
  end.

Fixpoint ends_with_newline (s : string) : bool :=
  match s with
  | EmptyString => false
  | String c EmptyString => Ascii.eqb c "010"%char
  | String _ rest => ends_with_newline rest
  end.

(** A text with its last line terminated: the empty text and a text that
    ends in a line feed are left alone. *)
Definition terminated (s : string) : string :=
  match s with
  | EmptyString => ""
  | _ => if ends_with_newline s then s else s +:+ String "010"%char ""
  end.

(** A response as the router builds it: a success with a result and no
    error text, or a failure with an error text and no result. *)
Definition well_shaped (r : Response) : Prop :=
  (OK r = true /\ is_Some (Result r) /\ Error r = "")
  \/ (OK r = false /\ Result r = None).

(** The memory of the Frozen lines of a process list, as an exact sum. *)
Definition frozen_mem (infos : list ProcessInfo) : Z :=
  foldr (fun i acc => if state_eqb (pi_State i) StateFrozen then pi_MemMB i + acc else acc)
        0 infos.

(** The identities of the subscriber channels.  Go compares channels by
    identity; every [make] gives a channel that is equal to no other. *)
Definition channel_ids (s : Sys) : list nat := map chan_id (subs (dmn s)).

Definition channels_fresh (s : Sys) : Prop :=
  NoDup (channel_ids s) /\ Forall (fun n => (n < next_ref s)%nat) (channel_ids s).

Definition keeps_channels (s s' : Sys) : Prop :=
  channel_ids s' = channel_ids s /\ (next_ref s <= next_ref s')%nat.

(** What Shutdown does to one entry: TERM for an Active one, CONT then
    TERM for a Frozen one, no signal otherwise; then its log is closed. *)
Definition farewell (p : Proc) : Trace :=
  match State p with
  | StateActive => [SendSignal (PID p) SIGTERM]
  | StateFrozen => [SendSignal (PID p) SIGCONT; SendSignal (PID p) SIGTERM]
  | _ => []
  end ++ match logFile p with Some f => [Close f] | None => [] end.

(** The hosts of the examples: with the tool and every action
    succeeding, the same with a later clock, without the tool, with a
    failing restore, and with a failing checkpoint. *)
Definition sound : Host := script.host true [] 100 512.
Definition bare : Host := script.host false [] 100 512.
Definition broken : Host := script.host true ["restore"] 100 512.
Definition stuck : Host := script.host true ["checkpoint"] 100 512.

(** A host whose log files hold three lines. *)
Definition logged : Host :=
  script.with_log sound
    ("one" +:+ String "010"%char ("two" +:+ String "010"%char ("three" +:+ String "010"%char ""))).

End props.

(** * Properties *)

Import protocol daemon props.

(** Unfolding the two monads down to state passing. *)
Ltac unmonad :=
  unfold mbind, mret, D_bind, D_ret, W_bind, W_ret, daemon.fail, panic,
    store, modify_metrics, kill, ProcessGPUMem, time_Now, writeJSON,
    getd, modify, alloc, lift, ask, perform in *.

Section Properties.
Context `{Host}.

Lemma state_eqb_eq (a b : ProcessState) : state_eqb a b = true <-> a = b.
Proof. destruct a, b; simpl; split; congruence. Qed.

Lemma state_eqb_refl (a : ProcessState) : state_eqb a a = true.
Proof. apply state_eqb_eq; reflexivity. Qed.

Lemma Sys_eta (s : Sys) :
  {| dmn := dmn s; trace := trace s; next_ref := next_ref s |} = s.
Proof. destruct s; reflexivity. Qed.

(** C6. Freeze of an Active entry while cuda-checkpoint is unavailable
    fails with the error whose text is exactly
    [cuda-checkpoint not available]; the call has no effect and leaves
    the whole system, hence the entry and the registry, as it was.  Sent
    as a [freeze] request, the answer carries that text and only the
    request counter moves. *)
Theorem C6_freeze_capability_missing (s : Sys) (name : string) (p : Proc) (req : Request) :
  procs (dmn s) !! name = Some p ->
  State p = StateActive ->
  checkpoint.Available (cuda (dmn s)) = false ->
  Method req = "freeze" ->
  json_name (Params req) = inl {| np_Name := name |} ->
  Freeze name s = (Failed CapabilityMissing, s)
  /\ Error_text CapabilityMissing = "cuda-checkpoint not available"
  /\ Handle req s = (Done (ErrResponse "cuda-checkpoint not available"), counted s)
  /\ procs (dmn (counted s)) !! name = Some p.
Proof.
  intros Hp Hact Hcuda Hm Hj.
  assert (HF : Freeze name s = (Failed CapabilityMissing, s)).
  { unfold Freeze. unmonad. rewrite Hp, Hact, Hcuda. reflexivity. }
  repeat split; try assumption; try reflexivity.
  unfold Handle. unmonad. rewrite Hm, Hj. simpl.
  unfold reply. simpl.
  change {| dmn := _; trace := trace s; next_ref := next_ref s |} with (counted s).
  assert (HF' : Freeze name (counted s) = (Failed CapabilityMissing, counted s)).
  { unfold Freeze. unmonad. simpl. rewrite Hp, Hact, Hcuda. reflexivity. }
  rewrite HF'. reflexivity.
Qed.

Lemma run_available (c : checkpoint.CUDA) (action : string) (pid : Z) (tr : Trace) :
  checkpoint.Available c = true ->
  checkpoint.run c action pid tr =
    (match host_exec tr (checkpoint.Binary c) ["--action"; action; "--pid"; Go.itoa pid] with
     | (elapsed, Some (out, cause)) => (elapsed, Some (ToolFailure action pid out cause))
     | (elapsed, None) => (elapsed, None)
     end, tr ++ [invoke c action pid]).
Proof.
  intros Ha. unfold checkpoint.run, checkpoint.exec, invoke. rewrite Ha. unmonad. simpl.
  destruct (host_exec _ _ _) as [elapsed [[out cause]|]]; reflexivity.
Qed.

Lemma run_unavailable (c : checkpoint.CUDA) (action : string) (pid : Z) (tr : Trace) :
  checkpoint.Available c = false ->
  checkpoint.run c action pid tr = ((0, Some CapabilityMissing), tr).
Proof. intros Ha. unfold checkpoint.run. rewrite Ha. reflexivity. Qed.

(** Every primitive leaves the old trace in place and adds at most its
    own invocation. *)
Lemma run_trace (c : checkpoint.CUDA) (action : string) (pid : Z) (tr : Trace) :
  snd (checkpoint.run c action pid tr) = tr
  \/ snd (checkpoint.run c action pid tr) = tr ++ [invoke c action pid].
Proof.
  destruct (checkpoint.Available c) eqn:Ha.
  - right. rewrite run_available by assumption. reflexivity.
  - left. rewrite run_unavailable by assumption. reflexivity.
Qed.

(** C5. The compound Freeze of the adapter runs Lock, then Checkpoint.
    When Lock fails, its failure is returned (under the context
    [lock]) and the trace is the one Lock left: Checkpoint was not
    attempted.  When Checkpoint fails, Unlock is run, whatever it
    answers is dropped, and the checkpoint failure is returned (under
    the context [checkpoint]); the tool was invoked three times, for
    lock, checkpoint and unlock.  When both succeed the durations are
    added and the tool was invoked twice. *)
Theorem C5_adapter_freeze_rollback (c : checkpoint.CUDA) (pid : Z) (tr : Trace) :
  match checkpoint.Lock c pid tr with
  | ((lockDur, Some e), tr1) =>
      checkpoint.Freeze c pid tr = ((lockDur, Some (Wrapped "lock" e)), tr1)
      /\ (tr1 = tr \/ tr1 = tr ++ [invoke c "lock" pid])
  | ((lockDur, None), tr1) =>
      match checkpoint.Checkpoint c pid tr1 with
      | ((ckptDur, Some e), tr2) =>
          checkpoint.Freeze c pid tr =
            ((Go.add64 lockDur ckptDur, Some (Wrapped "checkpoint" e)),
             snd (checkpoint.Unlock c pid tr2))
          /\ snd (checkpoint.Unlock c pid tr2) =
               tr ++ [invoke c "lock" pid; invoke c "checkpoint" pid;
                      invoke c "unlock" pid]
      | ((ckptDur, None), tr2) =>
          checkpoint.Freeze c pid tr = ((Go.add64 lockDur ckptDur, None), tr2)
          /\ tr2 = tr ++ [invoke c "lock" pid; invoke c "checkpoint" pid]
      end
  end.
Proof.
  unfold checkpoint.Freeze, checkpoint.Lock, checkpoint.Checkpoint, checkpoint.Unlock.
  unmonad.
  destruct (checkpoint.run c "lock" pid tr) as [[lockDur [e|]] tr1] eqn:Hl.
  - split; [reflexivity|].
    pose proof (run_trace c "lock" pid tr) as Ht. rewrite Hl in Ht. exact Ht.
  - assert (Ha : checkpoint.Available c = true).
    { destruct (checkpoint.Available c) eqn:Ha; [reflexivity|].
      rewrite run_unavailable in Hl by assumption. discriminate. }
    assert (Htr1 : tr1 = tr ++ [invoke c "lock" pid]).
    { rewrite run_available in Hl by assumption. congruence. }
    destruct (checkpoint.run c "checkpoint" pid tr1) as [[ckptDur [e|]] tr2] eqn:Hc.
    + assert (Htr2 : tr2 = tr1 ++ [invoke c "checkpoint" pid]).
      { rewrite run_available in Hc by assumption. congruence. }
      destruct (checkpoint.run c "unlock" pid tr2) as [ignored tr3] eqn:Hu.
      split; [reflexivity|]. simpl.
      rewrite run_available in Hu by assumption.
      inversion Hu; subst. rewrite <- !app_assoc. reflexivity.
    + split; [reflexivity|].
      rewrite run_available in Hc by assumption.
      inversion Hc; subst. rewrite <- !app_assoc. reflexivity.
Qed.

(** What a successful Freeze did: the entry was Active, its footprint
    was refreshed by the reading [mem], its state became Frozen, and
    nothing else in the registry moved. *)
Lemma Freeze_done (name : string) (s s' : Sys) (fr : FreezeResult) :
  Freeze name s = (Done fr, s') ->
  exists (p : Proc) (mem dur : Z),
    procs (dmn s) !! name = Some p
    /\ State p = StateActive
    /\ procs (dmn s') = <[name := set_State StateFrozen (refresh mem p)]> (procs (dmn s))
    /\ cuda (dmn s') = cuda (dmn s)
    /\ fr = {| fr_Name := name; fr_DurationMs := Go.Milliseconds dur;
               fr_Tier := ""; fr_MemMB := MemMB (refresh mem p) |}.
Proof.
  unfold Freeze. unmonad.
  destruct (procs (dmn s) !! name) as [p|] eqn:Hp; [|discriminate].
  destruct (state_eqb (State p) StateActive) eqn:Hst; [|discriminate].
  destruct (checkpoint.Available (cuda (dmn s))); [|discriminate].
  simpl.
  set (mem := host_gpu_mem (trace s) (PID p)).
  destruct (checkpoint.Freeze _ _ _) as [[dur [e|]] tr']; [discriminate|].
  simpl.
  destruct (Go.div64 _ _) as [avg|]; [|discriminate].
  unfold emit. unmonad. simpl.
  intros Heq. inversion Heq; subst; clear Heq. simpl.
  exists p, mem, dur. apply state_eqb_eq in Hst.
  repeat split; try assumption; try reflexivity.
  rewrite insert_insert_eq. reflexivity.
Qed.

(** What a successful Thaw did: the entry was Frozen and became Active,
    with no other field touched. *)
Lemma Thaw_done (name : string) (s s' : Sys) (tr : ThawResult) :
  Thaw name s = (Done tr, s') ->
  exists (p : Proc),
    procs (dmn s) !! name = Some p
    /\ State p = StateFrozen
    /\ procs (dmn s') = <[name := set_State StateActive p]> (procs (dmn s)).
Proof.
  unfold Thaw. unmonad.
  destruct (procs (dmn s) !! name) as [p|] eqn:Hp; [|discriminate].
  destruct (state_eqb (State p) StateFrozen) eqn:Hst; [|discriminate].
  simpl.
  destruct (checkpoint.Thaw _ _ _) as [[dur [e|]] tr']; [discriminate|].
  simpl.
  destruct (Go.div64 _ _) as [avg|]; [|discriminate].
  unfold emit. unmonad. simpl.
  intros Heq. inversion Heq; subst; clear Heq. simpl.
  exists p. apply state_eqb_eq in Hst. repeat split; assumption || reflexivity.
Qed.

(** What a successful Run did: it registered a new Active entry under
    the requested name, on the requested GPU, with the pid it returns. *)
Lemma Run_done (params : RunParams) (s s' : Sys) (r : RunResult) :
  Run params s = (Done r, s') ->
  exists (p : Proc),
    procs (dmn s) !! rp_Name params = None
    /\ procs (dmn s') = <[rp_Name params := p]> (procs (dmn s))
    /\ Name p = rp_Name params /\ State p = StateActive
    /\ GPU p = rp_GPU params /\ PID p = rr_PID r
    /\ rr_Name r = rp_Name params.
Proof.
  unfold Run. unmonad.
  destruct (procs (dmn s) !! rp_Name params) as [p|] eqn:Hp; [discriminate|].
  destruct (length (rp_Cmd params) =? 0)%nat; [discriminate|].
  simpl.
  destruct (host_create _ _) as [msg|]; [discriminate|].
  simpl.
  destruct (host_getuid (trace s ++ _) =? 0).
  - simpl. destruct (appendPythonPath _ _) as [env tr1]. simpl.
    destruct (host_start _ _ _ _) as [pid|msg]; [|discriminate].
    unfold emit. unmonad. simpl.
    intros Heq. inversion Heq; subst; clear Heq. simpl.
    eexists. repeat split; reflexivity.
  - simpl.
    destruct (host_start _ _ _ _) as [pid|msg]; [|discriminate].
    unfold emit. unmonad. simpl.
    intros Heq. inversion Heq; subst; clear Heq. simpl.
    eexists. repeat split; reflexivity.
Qed.

(** C1. For the entry that a successful Run created under name [n] on
    GPU [g], a successful Freeze of [n] followed by a successful Thaw of
    [n] leaves an entry that is Active again and has the same name, the
    same pid and the same assigned GPU as before the Freeze. *)
Theorem C1_run_freeze_thaw_roundtrip (params : RunParams) (s0 s1 s2 s3 : Sys)
    (r : RunResult) (fr : FreezeResult) (tr : ThawResult) :
  Run params s0 = (Done r, s1) ->
  Freeze (rp_Name params) s1 = (Done fr, s2) ->
  Thaw (rp_Name params) s2 = (Done tr, s3) ->
  exists (p1 p3 : Proc),
    procs (dmn s1) !! rp_Name params = Some p1
    /\ State p1 = StateActive /\ Name p1 = rp_Name params
    /\ GPU p1 = rp_GPU params /\ PID p1 = rr_PID r
    /\ procs (dmn s3) !! rp_Name params = Some p3
    /\ State p3 = StateActive /\ Name p3 = Name p1
    /\ PID p3 = PID p1 /\ GPU p3 = GPU p1.
Proof.
  intros Hrun Hfreeze Hthaw.
  apply Run_done in Hrun as (p1 & _ & Hs1 & Hname & Hstate & Hgpu & Hpid & _).
  apply Freeze_done in Hfreeze as (p & mem & dur & Hp & _ & Hs2 & _ & _).
  apply Thaw_done in Hthaw as (p2 & Hp2 & _ & Hs3).
  rewrite Hs1, lookup_insert_eq in Hp. inversion Hp; subst p; clear Hp.
  rewrite Hs2, lookup_insert_eq in Hp2. inversion Hp2; subst p2; clear Hp2.
  exists p1, (set_State StateActive (set_State StateFrozen (refresh mem p1))).
  rewrite Hs1, Hs3, !lookup_insert_eq.
  repeat split; try assumption; try reflexivity;
    unfold refresh; destruct (0 <? mem); reflexivity.
Qed.

(** C3, as the code has it. A successful freeze answers with the name,
    the duration in milliseconds and the footprint in MB of the frozen
    entry, and with an EMPTY tier field: the result is built without
    the tier, so the field keeps the zero value and is not [ram]. *)
Theorem C3_freeze_result_tier_empty (name : string) (s s' : Sys) (fr : FreezeResult) :
  Freeze name s = (Done fr, s') ->
  fr_Name fr = name
  /\ (exists p : Proc, procs (dmn s') !! name = Some p /\ State p = StateFrozen
                       /\ fr_MemMB fr = MemMB p)
  /\ fr_Tier fr = ""
  /\ fr_Tier fr <> TierRAM.
Proof.
  intros Hfreeze.
  apply Freeze_done in Hfreeze as (p & mem & dur & Hp & _ & Hs' & _ & ->).
  simpl. repeat split; try reflexivity; try discriminate.
  eexists. rewrite Hs', lookup_insert_eq. repeat split; reflexivity.
Qed.

(** C4. When, during the Thaw of a Frozen entry, the restore step of the
    adapter fails after CONT was sent, STOP is sent again, the error is
    returned to the caller (under the contexts [cuda thaw] and
    [restore]), and the daemon's memory is untouched: the entry is still
    Frozen with every field as before, no thaw is counted and no event
    is recorded. *)
Theorem C4_thaw_failure_restops (name : string) (s : Sys) (p : Proc)
    (restDur : Z) (e : error) (tr1 : Trace) :
  procs (dmn s) !! name = Some p ->
  State p = StateFrozen ->
  checkpoint.Restore (cuda (dmn s)) (PID p)
    (trace s ++ [SendSignal (PID p) SIGCONT]) = ((restDur, Some e), tr1) ->
  Thaw name s =
    (Failed (Wrapped "cuda thaw" (Wrapped "restore" e)),
     {| dmn := dmn s; trace := tr1 ++ [SendSignal (PID p) SIGSTOP];
        next_ref := next_ref s |})
  /\ (exists mid : Trace,
        tr1 ++ [SendSignal (PID p) SIGSTOP] =
          trace s ++ [SendSignal (PID p) SIGCONT] ++ mid ++ [SendSignal (PID p) SIGSTOP]
        /\ (mid = [] \/ mid = [invoke (cuda (dmn s)) "restore" (PID p)])).
Proof.
  intros Hp Hst Hrestore.
  split.
  - unfold Thaw. unmonad. rewrite Hp, Hst. simpl.
    unfold checkpoint.Thaw. unmonad. rewrite Hrestore. reflexivity.
  - unfold checkpoint.Restore in Hrestore.
    pose proof (run_trace (cuda (dmn s)) "restore" (PID p)
                  (trace s ++ [SendSignal (PID p) SIGCONT])) as Ht.
    rewrite Hrestore in Ht. simpl in Ht.
    destruct Ht as [-> | ->].
    + exists []. rewrite <- !app_assoc. split; [reflexivity | left; reflexivity].
    + eexists. rewrite <- !app_assoc. split; [reflexivity | right; reflexivity].
Qed.

(** C7. A successful Kill removes the entry from the registry, so that a
    second Kill of the same name, issued right after, fails with the
    not-found error, whose text is [process %q not found] at that
    name. *)
Theorem C7_kill_twice_not_found (name : string) (s s1 : Sys) :
  Kill name s = (Done tt, s1) ->
  procs (dmn s1) !! name = None
  /\ Kill name s1 = (Failed (NotFound name), s1)
  /\ Error_text (NotFound name) = "process " +:+ quote name +:+ " not found".
Proof.
  intros Hkill.
  assert (Hgone : procs (dmn s1) !! name = None).
  { revert Hkill. unfold Kill. unmonad.
    destruct (procs (dmn s) !! name) as [p|] eqn:Hp; [|discriminate].
    unfold close_log, emit. unmonad. simpl.
    destruct (state_eqb (State p) StateFrozen); destruct (logFile p); simpl;
      intros Heq; inversion Heq; subst; simpl; apply lookup_delete_eq. }
  split; [assumption | split; [| reflexivity]].
  unfold Kill. unmonad. rewrite Hgone. reflexivity.
Qed.

Lemma RestoreOnDevice_cases (c : checkpoint.CUDA) (pid device : Z) (tr : Trace) :
  let restore := Exec (checkpoint.Binary c)
                   ["--action"; "restore"; "--pid"; Go.itoa pid;
                    "--device"; Go.itoa device] in
  (checkpoint.Available c = false
   /\ checkpoint.RestoreOnDevice c pid device tr = ((0, Some CapabilityMissing), tr))
  \/ (checkpoint.Available c = true
      /\ exists (dur : Z) (err : option error),
           checkpoint.RestoreOnDevice c pid device tr = ((dur, err), tr ++ [restore])
           /\ match err with Some e => wrong_state e = false | None => True end).
Proof.
  unfold checkpoint.RestoreOnDevice, checkpoint.exec. unmonad.
  destruct (checkpoint.Available c); simpl.
  - right. split; [reflexivity|].
    destruct (host_exec _ _ _) as [dur [[out cause]|]]; eexists _, _; split;
      reflexivity || exact I.
  - left. split; reflexivity.
Qed.

Lemma run_error_kind (c : checkpoint.CUDA) (action : string) (pid dur : Z)
    (e : error) (tr tr' : Trace) :
  checkpoint.run c action pid tr = ((dur, Some e), tr') -> wrong_state e = false.
Proof.
  destruct (checkpoint.Available c) eqn:Ha.
  - rewrite run_available by assumption.
    destruct (host_exec _ _ _) as [d' [[out cause]|]]; intros Heq; inversion Heq; reflexivity.
  - rewrite run_unavailable by assumption. intros Heq; inversion Heq; reflexivity.
Qed.

Lemma Freeze_error_kind (c : checkpoint.CUDA) (pid dur : Z)
    (e : error) (tr tr' : Trace) :
  checkpoint.Freeze c pid tr = ((dur, Some e), tr') -> wrong_state e = false.
Proof.
  unfold checkpoint.Freeze, checkpoint.Lock, checkpoint.Checkpoint, checkpoint.Unlock.
  unmonad.
  destruct (checkpoint.run c "lock" pid tr) as [[d1 [e1|]] tr1] eqn:Hl.
  - intros Heq; inversion Heq; subst. simpl. eapply run_error_kind; eassumption.
  - destruct (checkpoint.run c "checkpoint" pid tr1) as [[d2 [e2|]] tr2] eqn:Hc.
    + destruct (checkpoint.run c "unlock" pid tr2).
      intros Heq; inversion Heq; subst. simpl. eapply run_error_kind; eassumption.
    + discriminate.
Qed.

(** C10. Migrate has no precondition on the state of the entry.  For an
    entry in the registry, whatever its state: (1) an error of Migrate
    is never a wrong-state error; (2) when the entry is not Active, no
    lock, no checkpoint and no STOP occurs among the effects of the
    call; (3) whenever Migrate succeeds, the entry is Active on the
    requested GPU, with its name and pid kept; (4) when the entry is not
    Active and both restore-on-device and unlock succeed, Migrate
    succeeds and the entry is the old one with state Active and the
    requested GPU. *)
Theorem C10_migrate_any_state (params : MigrateParams) (s : Sys) (p : Proc) :
  procs (dmn s) !! mp_Name params = Some p ->
  let name := mp_Name params in
  let c := cuda (dmn s) in
  let '(out, s') := Migrate params s in
  (forall e : error, out = Failed e -> wrong_state e = false)
  /\ (State p <> StateActive ->
      exists new : Trace,
        trace s' = trace s ++ new /\ forallb (fun e => negb (checkpoint_step e)) new = true)
  /\ (forall r : MigrateResult, out = Done r ->
      exists p' : Proc,
        procs (dmn s') !! name = Some p'
        /\ State p' = StateActive /\ GPU p' = mp_GPU params
        /\ Name p' = Name p /\ PID p' = PID p)
  /\ (State p <> StateActive ->
      forall (dur unlDur : Z) (tr1 tr2 : Trace),
        checkpoint.RestoreOnDevice c (PID p) (mp_GPU params)
          (trace s ++ [SendSignal (PID p) SIGCONT]) = ((dur, None), tr1) ->
        checkpoint.Unlock c (PID p) tr1 = ((unlDur, None), tr2) ->
        out = Done {| mr_Name := name; FromGPU := GPU p; ToGPU := mp_GPU params |}
        /\ procs (dmn s') =
             <[name := set_GPU (mp_GPU params) (set_State StateActive p)]> (procs (dmn s))).
Proof.
  intros Hp. simpl.
  unfold Migrate. unmonad. rewrite Hp.
  destruct (checkpoint.Available (cuda (dmn s))) eqn:Ha; simpl.
  2:{ split; [intros e Heq; inversion Heq; reflexivity|].
      split; [intros _; exists []; rewrite app_nil_r; split; reflexivity|].
      split; [intros r Heq; discriminate|].
      intros _ dur unlDur tr1 tr2 Hr _.
      destruct (RestoreOnDevice_cases (cuda (dmn s)) (PID p) (mp_GPU params)
                  (trace s ++ [SendSignal (PID p) SIGCONT]))
        as [[_ Hr'] | [Ha' _]]; congruence. }
  destruct (state_eqb (State p) StateActive) eqn:Hst; simpl.
  - (* an Active entry: the checkpoint step runs first *)
    apply state_eqb_eq in Hst.
    set (mem := host_gpu_mem (trace s) (PID p)).
    assert (Hpid : PID (refresh mem p) = PID p)
      by (unfold refresh; destruct (0 <? mem); reflexivity).
    assert (Hnm : Name (refresh mem p) = Name p)
      by (unfold refresh; destruct (0 <? mem); reflexivity).
    destruct (checkpoint.Freeze _ _ _) as [[fdur [fe|]] trf] eqn:Hf; simpl.
    { split; [intros e Heq; inversion Heq; simpl; eapply Freeze_error_kind; eassumption|].
      split; [intros Hne; congruence|].
      split; [intros r Heq; discriminate|]. intros Hne; congruence. }
    destruct (RestoreOnDevice_cases (cuda (dmn s)) (PID (refresh mem p)) (mp_GPU params)
                (trf ++ [SendSignal (PID (refresh mem p)) SIGSTOP]
                     ++ [SendSignal (PID (refresh mem p)) SIGCONT]))
      as [[Ha' _] | [_ (dur & err & Hr & Herr)]]; [congruence|].
    rewrite <- app_assoc. rewrite Hr. destruct err as [e|]; simpl.
    { split; [intros e0 Heq; inversion Heq; simpl; assumption|].
      split; [intros Hne; congruence|].
      split; [intros r Heq; discriminate|]. intros Hne; congruence. }
    unfold checkpoint.Unlock.
    destruct (checkpoint.run _ "unlock" _ _) as [[udur [ue|]] tru] eqn:Hu; simpl.
    { split; [intros e0 Heq; inversion Heq; simpl; eapply run_error_kind; eassumption|].
      split; [intros Hne; congruence|].
      split; [intros r Heq; discriminate|]. intros Hne; congruence. }
    unfold emit. unmonad. simpl.
    split; [intros e0 Heq; discriminate|].
    split; [intros Hne; congruence|].
    split; [|intros Hne; congruence].
    intros r _. eexists. rewrite lookup_insert_eq. split; [reflexivity|].
    simpl. repeat split; assumption.
  - (* any other state: straight to CONT and restore *)
    destruct (RestoreOnDevice_cases (cuda (dmn s)) (PID p) (mp_GPU params)
                (trace s ++ [SendSignal (PID p) SIGCONT]))
      as [[Ha' _] | [_ (dur & err & Hr & Herr)]]; [congruence|].
    rewrite Hr. destruct err as [e|]; simpl.
    { split; [intros e0 Heq; inversion Heq; simpl; assumption|].
      split; [intros _; eexists; rewrite <- app_assoc; split; reflexivity|].
      split; [intros r Heq; discriminate|].
      intros _ dur' unlDur tr1 tr2 Heq; discriminate. }
    unfold checkpoint.Unlock.
    rewrite (run_available _ "unlock") by assumption.
    destruct (host_exec _ _ _) as [udur [[out cause]|]] eqn:Hx; simpl.
    { split; [intros e0 Heq; inversion Heq; reflexivity|].
      split; [intros _; eexists; rewrite <- !app_assoc; split; reflexivity|].
      split; [intros r Heq; discriminate|].
      intros _ dur' unlDur tr1 tr2 Heq1 Heq2. inversion Heq1; subst.
      rewrite run_available in Heq2 by assumption. rewrite Hx in Heq2. discriminate. }
    unfold emit. unmonad. simpl.
    split; [intros e0 Heq; discriminate|].
    split; [intros _; eexists; rewrite <- !app_assoc; split; reflexivity|].
    split; [intros r _; eexists; rewrite lookup_insert_eq; repeat split; reflexivity|].
    intros _ dur' unlDur tr1 tr2 Heq1 Heq2. split; reflexivity.
Qed.

(** *** What no operation of the registry does *)



(** Case analysis on an innermost scrutinee of the goal. *)
Ltac break_match :=
  match goal with
  | |- context [match ?x with _ => _ end] =>
      lazymatch x with
      | context [match _ with _ => _ end] => fail
      | _ => destruct x eqn:?
      end
  end.












Lemma counted_no_hibernated (s : Sys) :
  no_hibernated (dmn (counted s)) <-> no_hibernated (dmn s).
Proof. reflexivity. Qed.














(** *** The order of the process list *)






(** *** The time of a freeze *)

Lemma last_trimmed {A} (l : list A) (x : A) :
  last (if (1000 <? length (l ++ [x]))%nat then Go.last_n 500 (l ++ [x]) else l ++ [x])
  = Some x.
Proof.
  destruct (1000 <? length (l ++ [x]))%nat eqn:Hlen; [|apply last_snoc].
  unfold Go.last_n. rewrite length_app. simpl.
  apply Nat.ltb_lt in Hlen. rewrite length_app in Hlen. simpl in Hlen.
  rewrite drop_app_le by lia. apply last_snoc.
Qed.


(** ** Further properties of the adapter *)

(** X1. Without the tool nothing is invoked: every primitive and both
    compound operations of the adapter fail with the capability error and
    leave the trace as it was; Freeze reports it under [lock], Thaw under
    [restore]. *)
Theorem adapter_unavailable_invokes_nothing (c : checkpoint.CUDA) (pid device : Z)
    (tr : Trace) :
  checkpoint.Available c = false ->
  checkpoint.Lock c pid tr = ((0, Some CapabilityMissing), tr)
  /\ checkpoint.Checkpoint c pid tr = ((0, Some CapabilityMissing), tr)
  /\ checkpoint.Restore c pid tr = ((0, Some CapabilityMissing), tr)
  /\ checkpoint.Unlock c pid tr = ((0, Some CapabilityMissing), tr)
  /\ checkpoint.RestoreOnDevice c pid device tr = ((0, Some CapabilityMissing), tr)
  /\ checkpoint.Freeze c pid tr = ((0, Some (Wrapped "lock" CapabilityMissing)), tr)
  /\ checkpoint.Thaw c pid tr = ((0, Some (Wrapped "restore" CapabilityMissing)), tr)
  /\ Error_text (Wrapped "lock" CapabilityMissing) = "lock: cuda-checkpoint not available".
Proof.
  intros Ha.
  unfold checkpoint.Lock, checkpoint.Checkpoint, checkpoint.Restore, checkpoint.Unlock,
    checkpoint.Freeze, checkpoint.Thaw, checkpoint.RestoreOnDevice.
  unmonad. unfold checkpoint.Lock, checkpoint.Restore.
  rewrite !run_unavailable by assumption. rewrite Ha. simpl.
  repeat split; reflexivity.
Qed.

(** X2. The compound Thaw of the adapter runs Restore, then Unlock.  When
    Restore fails its failure is returned under [restore] and Unlock is
    not attempted: there is no compensation.  When Unlock fails, both
    invocations were made and the failure is returned under [unlock] with
    the summed duration.  When both succeed the durations are added. *)
Theorem adapter_thaw_sequence (c : checkpoint.CUDA) (pid : Z) (tr : Trace) :
  match checkpoint.Restore c pid tr with
  | ((restDur, Some e), tr1) =>
      checkpoint.Thaw c pid tr = ((restDur, Some (Wrapped "restore" e)), tr1)
      /\ (tr1 = tr \/ tr1 = tr ++ [invoke c "restore" pid])
  | ((restDur, None), tr1) =>
      tr1 = tr ++ [invoke c "restore" pid]
      /\ match checkpoint.Unlock c pid tr1 with
         | ((unlDur, err), tr2) =>
             tr2 = tr ++ [invoke c "restore" pid; invoke c "unlock" pid]
             /\ checkpoint.Thaw c pid tr =
                  ((Go.add64 restDur unlDur,
                    match err with Some e => Some (Wrapped "unlock" e) | None => None end),
                   tr2)
         end
  end.
Proof.
  unfold checkpoint.Thaw, checkpoint.Restore, checkpoint.Unlock. unmonad.
  destruct (checkpoint.run c "restore" pid tr) as [[restDur [e|]] tr1] eqn:Hr.
  - split; [reflexivity|].
    pose proof (run_trace c "restore" pid tr) as Ht. rewrite Hr in Ht. exact Ht.
  - assert (Ha : checkpoint.Available c = true).
    { destruct (checkpoint.Available c) eqn:Ha; [reflexivity|].
      rewrite run_unavailable in Hr by assumption. discriminate. }
    assert (Htr1 : tr1 = tr ++ [invoke c "restore" pid]).
    { rewrite run_available in Hr by assumption. congruence. }
    split; [exact Htr1|].
    destruct (checkpoint.run c "unlock" pid tr1) as [[unlDur err] tr2] eqn:Hu.
    assert (Htr2 : tr2 = tr1 ++ [invoke c "unlock" pid]).
    { rewrite run_available in Hu by assumption. congruence. }
    split; [subst; rewrite <- app_assoc; reflexivity|].
    destruct err; reflexivity.
Qed.

(** ** Further properties of the registry *)

(** X3. Run refuses, without any effect, a name that a successful Run has
    registered (whatever the new command is) and, for a free name, an
    empty command: no log file is created and no process is started. *)
Theorem Run_refusals_have_no_effect (params params' : RunParams) (s s1 : Sys)
    (r : RunResult) :
  Run params s = (Done r, s1) ->
  (rp_Name params' = rp_Name params ->
   Run params' s1 = (Failed (AlreadyExists (rp_Name params)), s1))
  /\ (procs (dmn s1) !! rp_Name params' = None -> rp_Cmd params' = [] ->
      Run params' s1 = (Failed EmptyCommand, s1))
  /\ Error_text (AlreadyExists (rp_Name params)) =
       "process " +:+ quote (rp_Name params) +:+ " already exists"
  /\ Error_text EmptyCommand = "empty command".
Proof.
  intros Hrun. apply Run_done in Hrun as (p & _ & Hs1 & _).
  split; [|split; [|split; reflexivity]].
  - intros Hname. unfold Run. unmonad. rewrite Hname, Hs1, lookup_insert_eq. reflexivity.
  - intros Hfree Hcmd. unfold Run. unmonad. rewrite Hfree, Hcmd. reflexivity.
Qed.

(** X4. Kill of a registered entry cannot fail, whatever the state of the
    entry.  It sends CONT first when the entry is Frozen, then TERM, and
    schedules the KILL; it closes the log, records a [kill] event and
    leaves the registry as it was without the entry: no other entry and no
    counter is touched. *)
Theorem Kill_removes_the_entry_only (name : string) (s : Sys) (p : Proc) :
  procs (dmn s) !! name = Some p ->
  exists s' : Sys,
    Kill name s = (Done tt, s')
    /\ procs (dmn s') = delete name (procs (dmn s))
    /\ metrics (dmn s') = metrics (dmn s)
    /\ trace s' =
         trace s
         ++ (if state_eqb (State p) StateFrozen then [SendSignal (PID p) SIGCONT] else [])
         ++ [SendSignal (PID p) SIGTERM; GraceKill (PID p)]
         ++ (match logFile p with Some f => [Close f] | None => [] end)
         ++ [Now]
    /\ exists ev : Event,
         last (events (dmn s')) = Some ev /\ Type_ ev = "kill" /\ Process ev = name.
Proof.
  intros Hp. unfold Kill. unmonad. rewrite Hp. unfold close_log, emit. unmonad.
  cbn [set_State logFile].
  destruct (state_eqb (State p) StateFrozen); destruct (logFile p) as [f|];
    cbn [dmn trace next_ref];
    (eexists; split; [reflexivity|]);
    cbn [dmn trace next_ref procs metrics events set_procs set_subs set_events];
    (split; [rewrite delete_insert_eq; reflexivity|]);
    (split; [reflexivity|]);
    (split; [rewrite <- ?app_assoc; reflexivity|]);
    (eexists; split; [apply last_trimmed | split; reflexivity]).
Qed.

(** X5. When the adapter fails during Freeze, the entry stays Active and
    registered, STOP is not sent (the trace ends where the adapter left
    it), no freeze is counted and no event is recorded; the error comes
    back under [cuda freeze].  Only the footprint may have been refreshed
    by the reading taken before the attempt. *)
Theorem Freeze_failure_keeps_the_entry_active (name : string) (s : Sys) (p : Proc)
    (dur : Z) (e : error) (tr1 : Trace) :
  procs (dmn s) !! name = Some p ->
  State p = StateActive ->
  checkpoint.Available (cuda (dmn s)) = true ->
  checkpoint.Freeze (cuda (dmn s)) (PID p) (trace s ++ [GPUMem (PID p)]) =
    ((dur, Some e), tr1) ->
  exists s' : Sys,
    Freeze name s = (Failed (Wrapped "cuda freeze" e), s')
    /\ procs (dmn s') = <[name := refresh (host_gpu_mem (trace s) (PID p)) p]> (procs (dmn s))
    /\ State (refresh (host_gpu_mem (trace s) (PID p)) p) = StateActive
    /\ metrics (dmn s') = metrics (dmn s)
    /\ events (dmn s') = events (dmn s)
    /\ freezeTotalMs (dmn s') = freezeTotalMs (dmn s)
    /\ trace s' = tr1.
Proof.
  intros Hp Hst Ha Hfreeze. unfold Freeze. unmonad. rewrite Hp, Hst, Ha. simpl.
  assert (Hpid : PID (refresh (host_gpu_mem (trace s) (PID p)) p) = PID p)
    by (unfold refresh; destruct (0 <? _); reflexivity).
  rewrite Hpid, Hfreeze.
  eexists. split; [reflexivity|]. simpl.
  repeat split; try reflexivity.
  unfold refresh; destruct (0 <? _); simpl; assumption.
Qed.

(** X6. An operation cannot be repeated: right after a successful Freeze
    a second Freeze of the same name fails with the wrong-state error
    [process %q is frozen, not active], and when the entry is then thawed
    successfully a second Thaw fails with [process %q is active, not
    frozen]; the refused call has no effect at all. *)
Theorem repeated_freeze_or_thaw_is_refused (name : string) (s s1 : Sys)
    (fr : FreezeResult) :
  Freeze name s = (Done fr, s1) ->
  Freeze name s1 = (Failed (WrongState name StateFrozen "active"), s1)
  /\ (forall (s2 : Sys) (tr : ThawResult),
        Thaw name s1 = (Done tr, s2) ->
        Thaw name s2 = (Failed (WrongState name StateActive "frozen"), s2))
  /\ Error_text (WrongState name StateFrozen "active") =
       "process " +:+ quote name +:+ " is frozen, not active"
  /\ Error_text (WrongState name StateActive "frozen") =
       "process " +:+ quote name +:+ " is active, not frozen".
Proof.
  intros Hfreeze.
  split; [|split; [|split; reflexivity]].
  - apply Freeze_done in Hfreeze as (p & mem & dur & _ & _ & Hs1 & _ & _).
    unfold Freeze. unmonad. rewrite Hs1, lookup_insert_eq. reflexivity.
  - intros s2 tr Hthaw.
    apply Thaw_done in Hthaw as (p & _ & _ & Hs2).
    unfold Thaw. unmonad. rewrite Hs2, lookup_insert_eq. reflexivity.
Qed.

(** ** What the daemon's memory always satisfies *)
Lemma send_bounded (e : Event) (l : list Chan) :
  Forall (fun c => (length (buffer c) <= 64)%nat) l ->
  Forall (fun c => (length (buffer c) <= 64)%nat) (map (send e) l).
Proof.
  intros Hl. apply Forall_map. eapply Forall_impl; [exact Hl|].
  intros c Hc. unfold send. destruct (length (buffer c) <? 64)%nat eqn:Hlt; simpl.
  - apply Nat.ltb_lt in Hlt. rewrite length_app. simpl. lia.
  - exact Hc.
Qed.

Lemma remove_chan_bounded (ch : nat) (l : list Chan) :
  Forall (fun c => (length (buffer c) <= 64)%nat) l ->
  Forall (fun c => (length (buffer c) <= 64)%nat) (remove_chan ch l).
Proof.
  induction 1 as [|c l Hc Hl IH]; simpl; [constructor|].
  destruct (Nat.eqb (chan_id c) ch); [assumption | constructor; assumption].
Qed.

Lemma take_event_bounded (ch : nat) (l l' : list Chan) (e : Event) :
  take_event ch l = Some (e, l') ->
  Forall (fun c => (length (buffer c) <= 64)%nat) l ->
  Forall (fun c => (length (buffer c) <= 64)%nat) l'.
Proof.
  revert l'. induction l as [|c l IH]; intros l' Htake Hall; simpl in Htake; [discriminate|].
  inversion Hall as [|? ? Hc Hl]; subst.
  destruct (Nat.eqb (chan_id c) ch).
  - destruct (buffer c) as [|e' more] eqn:Hbuf; [discriminate|].
    inversion Htake; subst. constructor; [|assumption]. simpl. simpl in Hc. lia.
  - destruct (take_event ch l) as [[e' rest]|] eqn:Hrec; simpl in Htake; [|discriminate].
    inversion Htake; subst. constructor; [assumption|]. eapply IH; [reflexivity|assumption].
Qed.

Lemma div64_mean (total n a : Z) : Go.div64 total n = Some a -> a = mean total n.
Proof.
  unfold Go.div64, mean. destruct (n =? 0); [discriminate|]. congruence.
Qed.

Ltac wf_names Hnames :=
  first
    [ assumption
    | apply map_Forall_delete; wf_names Hnames
    | apply map_Forall_insert_2;
      [ simpl; first [ reflexivity
                     | match goal with
                       | Hl : procs _ !! ?n = Some ?p |- Name ?p = ?n =>
                           exact (Hnames n p Hl)
                       end ]
      | wf_names Hnames ] ].

Ltac wf_done :=
  let Heq := fresh "Heq" in
  let Hok := fresh "Hok" in
  let Hnames := fresh "Hnames" in
  let Hev := fresh "Hev" in
  let Hsubs := fresh "Hsubs" in
  let Hfr := fresh "Hfr" in
  let Hth := fresh "Hth" in
  intros Heq Hok (Hnames & Hev & Hsubs & Hfr & Hth);
  inversion Heq; subst; clear Heq;
  first
    [ congruence
    | unfold well_formed; simpl;
      split; [wf_names Hnames|];
      split; [first [ assumption
                    | unfold Go.last_n; rewrite length_drop; lia
                    | apply Nat.ltb_ge; assumption ]|];
      split; [first [ assumption | apply send_bounded; assumption
                    | apply Forall_app; split; [assumption | repeat constructor]
                    | apply remove_chan_bounded; assumption
                    | eapply take_event_bounded; eassumption
                    | constructor ]|];
      split; first [assumption | apply div64_mean; assumption] ].

Ltac wf_op := unmonad; unfold emit, close_log, refresh; unmonad;
              repeat (simpl; break_match); simpl; wf_done.

Lemma Run_well_formed (params : RunParams) (s s' : Sys) (out : Outcome RunResult) :
  Run params s = (out, s') -> out <> Panicked ->
  well_formed (dmn s) -> well_formed (dmn s').
Proof. unfold Run. wf_op. Qed.

Lemma Freeze_well_formed (name : string) (s s' : Sys) (out : Outcome FreezeResult) :
  Freeze name s = (out, s') -> out <> Panicked ->
  well_formed (dmn s) -> well_formed (dmn s').
Proof. unfold Freeze. wf_op. Qed.

Lemma Thaw_well_formed (name : string) (s s' : Sys) (out : Outcome ThawResult) :
  Thaw name s = (out, s') -> out <> Panicked ->
  well_formed (dmn s) -> well_formed (dmn s').
Proof. unfold Thaw. wf_op. Qed.

Lemma Kill_well_formed (name : string) (s s' : Sys) (out : Outcome unit) :
  Kill name s = (out, s') -> out <> Panicked ->
  well_formed (dmn s) -> well_formed (dmn s').
Proof. unfold Kill. wf_op. Qed.

Lemma Migrate_well_formed (params : MigrateParams) (s s' : Sys)
    (out : Outcome MigrateResult) :
  Migrate params s = (out, s') -> out <> Panicked ->
  well_formed (dmn s) -> well_formed (dmn s').
Proof. unfold Migrate. wf_op. Qed.

Lemma Logs_well_formed (name : string) (lines : Z) (s s' : Sys) (out : Outcome LogsResult) :
  Logs name lines s = (out, s') -> out <> Panicked ->
  well_formed (dmn s) -> well_formed (dmn s').
Proof. unfold Logs. wf_op. Qed.

Lemma well_formed_trace (d : Daemon) (s : Sys) :
  dmn s = d -> well_formed d -> well_formed (dmn s).
Proof. intros ->. tauto. Qed.

Lemma status_loop_well_formed (entries : list (string * Proc)) :
  forall (infos : list ProcessInfo) (snap : Z) (s s' : Sys)
         (out : Outcome (list ProcessInfo * Z)),
    Forall (fun e => Name (snd e) = fst e) entries ->
    status_loop entries infos snap s = (out, s') ->
    well_formed (dmn s) -> out <> Panicked /\ well_formed (dmn s').
Proof.
  induction entries as [|[name p] rest IH]; intros infos snap s s' out Hentries.
  - simpl. unmonad. intros Heq Hwf; inversion Heq; subst. split; [discriminate | exact Hwf].
  - inversion Hentries as [|? ? Hp Hrest]; subst. simpl in Hp.
    cbn [status_loop]. unfold time_Since. unmonad.
    destruct (state_eqb (State p) StateActive) eqn:Hst; cbn beta iota.
    + intros Hrec (Hnames & Hev & Hsubs & Hfr & Hth).
      eapply IH; [exact Hrest | exact Hrec |].
      unfold well_formed; simpl. repeat split; try assumption.
      apply map_Forall_insert_2; [|assumption].
      unfold refresh; destruct (0 <? _); simpl; exact Hp.
    + intros Hrec Hwf. eapply IH; [exact Hrest | exact Hrec | exact Hwf].
Qed.

Lemma range_names (d : Daemon) :
  map_Forall (fun name p => Name p = name) (procs d) ->
  Forall (fun e => Name (snd e) = fst e) (range_order (map_to_list (procs d))).
Proof.
  intros Hnames. rewrite (range_order_perm _ (map_to_list (procs d))).
  apply map_Forall_to_list in Hnames.
  eapply Forall_impl; [exact Hnames|]. intros [name p] Hp. exact Hp.
Qed.

Lemma Status_well_formed (s s' : Sys) (out : Outcome StatusResult) :
  Status s = (out, s') -> well_formed (dmn s) -> out <> Panicked /\ well_formed (dmn s').
Proof.
  unfold Status. unmonad. cbn beta iota.
  destruct (host_mem_info _) as [totalRAM freeRAM]. cbn beta iota.
  cbn [dmn trace next_ref].
  intros Heq Hwf.
  destruct (status_loop _ _ _ _) as [out1 s1] eqn:Hloop.
  apply status_loop_well_formed in Hloop as [Hok Hwf1];
    [| apply range_names; apply Hwf | exact Hwf].
  destruct out1 as [[infos snap]| |]; [| |congruence];
    inversion Heq; subst; split; try discriminate; exact Hwf1.
Qed.

Lemma Handle_well_formed (req : Request) (s s' : Sys) (out : Outcome Response) :
  Handle req s = (out, s') -> out <> Panicked ->
  well_formed (dmn s) -> well_formed (dmn s').
Proof.
  unfold Handle, bad_params. unmonad. cbn beta iota.
  change {| dmn := _; trace := trace s; next_ref := next_ref s |} with (counted s).
  intros Heq Hok Hwf.
  assert (Hwf0 : well_formed (dmn (counted s))) by exact Hwf.
  clear Hwf. revert Heq.
  repeat break_match;
    try (intros Heq; inversion Heq; subst; exact Hwf0);
    unfold reply; intros Heq;
    match type of Heq with
    | (let (_, _) := ?m (counted s) in _) = _ =>
        destruct (m (counted s)) as [[a|e|] s1] eqn:Hop;
        inversion Heq; subst; try congruence
    end;
    first [ eapply Run_well_formed; [exact Hop | discriminate | exact Hwf0]
          | eapply Freeze_well_formed; [exact Hop | discriminate | exact Hwf0]
          | eapply Thaw_well_formed; [exact Hop | discriminate | exact Hwf0]
          | eapply Kill_well_formed; [exact Hop | discriminate | exact Hwf0]
          | eapply Migrate_well_formed; [exact Hop | discriminate | exact Hwf0]
          | eapply Logs_well_formed; [exact Hop | discriminate | exact Hwf0]
          | eapply Status_well_formed; [exact Hop | exact Hwf0] ].
Qed.

Lemma Subscribe_well_formed (s s' : Sys) (out : Outcome nat) :
  Subscribe s = (out, s') -> out <> Panicked ->
  well_formed (dmn s) -> well_formed (dmn s').
Proof. unfold Subscribe. wf_op. Qed.

Lemma Unsubscribe_well_formed (ch : nat) (s s' : Sys) (out : Outcome unit) :
  Unsubscribe ch s = (out, s') -> out <> Panicked ->
  well_formed (dmn s) -> well_formed (dmn s').
Proof. unfold Unsubscribe. wf_op. Qed.

Lemma forward_well_formed (ch : nat) (s s' : Sys) (out : Outcome unit) :
  forward ch s = (out, s') -> out <> Panicked ->
  well_formed (dmn s) -> well_formed (dmn s').
Proof. unfold forward. wf_op. Qed.

Lemma monitorProcess_well_formed (name : string) (err : option string) (s s' : Sys)
    (out : Outcome unit) :
  monitorProcess name err s = (out, s') -> out <> Panicked ->
  well_formed (dmn s) -> well_formed (dmn s').
Proof. unfold monitorProcess. wf_op. Qed.

Lemma sample_well_formed (name : string) (cmd : nat) (s s' : Sys) (out : Outcome unit) :
  sample name cmd s = (out, s') -> out <> Panicked ->
  well_formed (dmn s) -> well_formed (dmn s').
Proof. unfold sample. wf_op. Qed.

Lemma shutdown_loop_frame (entries : list (string * Proc)) :
  forall (s s' : Sys) (out : Outcome unit),
    shutdown_loop entries s = (out, s') -> out = Done tt /\ dmn s' = dmn s.
Proof.
  induction entries as [|[name p] rest IH]; intros s s' out.
  - simpl. unmonad. intros Heq; inversion Heq; subst. split; reflexivity.
  - cbn [shutdown_loop]. unfold close_log. unmonad.
    destruct (State p); destruct (logFile p); cbn beta iota;
      intros Hrec; apply IH in Hrec as [Hout Hd]; split; assumption.
Qed.

Lemma Shutdown_well_formed (s s' : Sys) (out : Outcome unit) :
  Shutdown s = (out, s') -> out <> Panicked ->
  well_formed (dmn s) -> well_formed (dmn s').
Proof.
  unfold Shutdown. unmonad.
  destruct (shutdown_loop _ _) as [out1 s1] eqn:Hloop.
  apply shutdown_loop_frame in Hloop as [-> Hd].
  intros Heq _ (Hnames & Hev & Hsubs & Hfr & Hth). inversion Heq; subst.
  unfold well_formed; simpl. rewrite Hd. repeat split; try assumption. constructor.
Qed.

Lemma handleSubscribe_well_formed (s s' : Sys) (out : Outcome nat) :
  handleSubscribe s = (out, s') -> well_formed (dmn s) ->
  out <> Panicked /\ well_formed (dmn s').
Proof.
  unfold handleSubscribe. unfold mbind at 1, D_bind at 1.
  destruct (Subscribe s) as [out0 s0] eqn:Hsub. intros Heq Hwf.
  assert (Hout0 : exists ch, out0 = Done ch).
  { revert Hsub. unfold Subscribe. unmonad. intros Hsub; inversion Hsub; eauto. }
  destruct Hout0 as [ch ->].
  apply Subscribe_well_formed in Hsub; [|discriminate|exact Hwf].
  revert Heq. unfold mbind at 1, D_bind at 1.
  destruct (Status s0) as [out1 s1] eqn:Hst.
  apply Status_well_formed in Hst as [Hok1 Hwf1]; [|exact Hsub].
  destruct out1 as [st| |]; [| |congruence]; unmonad;
    intros Heq; inversion Heq; subst; split; try discriminate; exact Hwf1.
Qed.

Lemma handleConn_well_formed (line : string) (s s' : Sys) (out : Outcome unit) :
  handleConn line s = (out, s') -> out <> Panicked ->
  well_formed (dmn s) -> well_formed (dmn s').
Proof.
  unfold handleConn.
  destruct (json_request line) as [req|msg].
  - destruct (String.eqb (Method req) "subscribe").
    + unfold mbind, D_bind.
      destruct (handleSubscribe s) as [out0 s0] eqn:Hsub.
      intros Heq _ Hwf.
      apply handleSubscribe_well_formed in Hsub as [_ Hwf0]; [|exact Hwf].
      destruct out0; unfold mret, D_ret in Heq; inversion Heq; subst; exact Hwf0.
    + unfold mbind, D_bind.
      destruct (Handle req s) as [out0 s0] eqn:Hh.
      intros Heq Hok Hwf.
      destruct out0 as [resp| |].
      * apply Handle_well_formed in Hh; [|discriminate|exact Hwf].
        revert Heq. unmonad. intros Heq; inversion Heq; subst. exact Hh.
      * apply Handle_well_formed in Hh; [|discriminate|exact Hwf].
        inversion Heq; subst. exact Hh.
      * inversion Heq; subst. congruence.
  - unmonad. intros Heq _ Hwf; inversion Heq; subst. exact Hwf.
Qed.

Lemma boot_well_formed (cfg : Config) : well_formed (dmn (boot cfg)).
Proof.
  unfold boot, New. unmonad.
  destruct (RAMBudgetMB cfg =? 0); [destruct (host_mem_info []) as [total free]|];
    unfold well_formed; simpl;
    (split; [apply map_Forall_empty|]); repeat split; try lia; constructor.
Qed.

Lemma reachable_well_formed (s : Sys) : reachable s -> well_formed (dmn s).
Proof.
  induction 1 as [cfg | a s s' Hreach IH Hstep].
  - apply boot_well_formed.
  - destruct a; simpl in Hstep.
    + eapply handleConn_well_formed; [exact Hstep | discriminate | exact IH].
    + eapply monitorProcess_well_formed; [exact Hstep | discriminate | exact IH].
    + eapply sample_well_formed; [exact Hstep | discriminate | exact IH].
    + eapply forward_well_formed; [exact Hstep | discriminate | exact IH].
    + eapply Unsubscribe_well_formed; [exact Hstep | discriminate | exact IH].
    + eapply Shutdown_well_formed; [exact Hstep | discriminate | exact IH].
Qed.

(** X7. In every state the daemon can reach, every entry of the registry
    is stored under its own name. *)
Theorem entries_are_registered_under_their_name (s : Sys) (name : string) (p : Proc) :
  reachable s -> procs (dmn s) !! name = Some p -> Name p = name.
Proof.
  intros Hreach Hp. apply reachable_well_formed in Hreach as (Hnames & _).
  exact (Hnames name p Hp).
Qed.



(** X10. In every state the daemon can reach, the two averages of the
    metrics are the truncated means of the freeze and thaw durations
    summed so far (and zero before the first freeze or thaw). *)
Theorem averages_are_the_means (s : Sys) :
  reachable s ->
  AvgFreezeMs (metrics (dmn s)) =
    mean (freezeTotalMs (dmn s)) (Freezes (metrics (dmn s)))
  /\ AvgThawMs (metrics (dmn s)) =
       mean (thawTotalMs (dmn s)) (Thaws (metrics (dmn s))).
Proof.
  intros Hreach. apply reachable_well_formed in Hreach as (_ & _ & _ & Hfr & Hth).
  split; assumption.
Qed.

(** ** The status snapshot *)

Lemma status_loop_reports (entries : list (string * Proc)) :
  forall (infos infos' : list ProcessInfo) (snap snap' : Z) (s s' : Sys),
    status_loop entries infos snap s = (Done (infos', snap'), s') ->
    (exists new : list ProcessInfo,
        infos' = infos ++ new /\ Forall2 (fun e i => reports (snd e) i) entries new)
    /\ events (dmn s') = events (dmn s)
    /\ metrics (dmn s') = metrics (dmn s)
    /\ cuda (dmn s') = cuda (dmn s)
    /\ cfg (dmn s') = cfg (dmn s).
Proof.
  induction entries as [|[name p] rest IH]; intros infos infos' snap snap' s s'.
  - simpl. unmonad. intros Heq; inversion Heq; subst.
    split; [exists []; rewrite app_nil_r; split; [reflexivity | constructor]|].
    repeat split; reflexivity.
  - cbn [status_loop]. unfold time_Since. unmonad.
    destruct (state_eqb (State p) StateActive) eqn:Hst; cbn beta iota;
      intros Hrec; apply IH in Hrec as ((new & -> & Hnew) & Hev & Hm & Hc & Hcfg);
      (split; [eexists (_ :: new); split; [rewrite <- app_assoc; reflexivity|];
               constructor; [|exact Hnew]|]).
    + unfold reports, refresh; destruct (0 <? _); simpl; repeat split; reflexivity.
    + repeat split; assumption.
    + unfold reports; simpl; repeat split; reflexivity.
    + repeat split; assumption.
Qed.

(** X11. In every state the daemon can reach, the process list of a
    status snapshot lists every registered process exactly once, and every
    line reports the registered entry of that name: its state, pid, GPU
    and start time, and the tier [ram] when it is Frozen and [gpu]
    otherwise. *)
Theorem Status_reports_the_registry (s s' : Sys) (r : StatusResult) :
  reachable s ->
  Status s = (Done r, s') ->
  Permutation (map pi_Name (Processes r)) (map fst (map_to_list (procs (dmn s))))
  /\ Forall (fun i => exists p : Proc,
                procs (dmn s) !! pi_Name i = Some p /\ reports p i) (Processes r).
Proof.
  intros Hreach. apply reachable_well_formed in Hreach as (Hnames & _).
  unfold Status. unmonad. cbn beta iota.
  destruct (host_mem_info _) as [totalRAM freeRAM]. cbn beta iota.
  cbn [dmn trace next_ref].
  destruct (status_loop _ _ _ _) as [[[infos snap]| |] s1] eqn:Hloop; try discriminate.
  apply status_loop_reports in Hloop as ((new & Hinfos & Hnew) & _).
  simpl in Hinfos. subst infos.
  intros Heq; inversion Heq; subst; clear Heq. simpl.
  pose proof (range_names (dmn s) Hnames) as Hentries.
  pose proof (range_order_perm _ (map_to_list (procs (dmn s)))) as Hperm.
  set (entries := range_order (map_to_list (procs (dmn s)))) in *.
  assert (Hall : Forall (fun e => e ∈ map_to_list (procs (dmn s))) entries).
  { apply Forall_forall. intros e He. rewrite <- Hperm. exact He. }
  assert (Hkeys : map pi_Name new = map fst entries).
  { clear Hperm Hall. induction Hnew as [|e i es js Hr Hrest IH]; [reflexivity|].
    inversion Hentries as [|? ? He Hes]; subst. simpl.
    destruct Hr as (Hn & _). rewrite Hn, He. f_equal. apply IH; assumption. }
  split.
  - rewrite (sort_Slice_perm _ status_less new), Hkeys, Hperm. reflexivity.
  - rewrite (sort_Slice_perm _ status_less new).
    clear Hkeys Hperm. induction Hnew as [|e i es js Hr Hrest IH]; [constructor|].
    inversion Hentries as [|? ? He Hes]; subst.
    inversion Hall as [|? ? Hin Hins]; subst.
    constructor; [|apply IH; assumption].
    exists (snd e). split; [|exact Hr].
    destruct Hr as (Hn & _). rewrite Hn, He.
    destruct e as [name p]. apply elem_of_map_to_list in Hin. exact Hin.
Qed.

(** X12. A status snapshot carries the metrics, the RAM budget and the
    tool capability of the daemon as they are, and the most recent events
    of the ring in order: all of them up to 20, the last 20 beyond. *)
Theorem Status_carries_the_recent_events (s s' : Sys) (r : StatusResult) :
  Status s = (Done r, s') ->
  Events r `suffix_of` events (dmn s)
  /\ length (Events r) = Nat.min (length (events (dmn s))) 20
  /\ sr_Metrics r = metrics (dmn s)
  /\ HostRAMBudgetMB (Memory r) = RAMBudgetMB (cfg (dmn s))
  /\ CUDACheckpoint (Caps r) = checkpoint.Available (cuda (dmn s)).
Proof.
  unfold Status. unmonad. cbn beta iota.
  destruct (host_mem_info _) as [totalRAM freeRAM]. cbn beta iota.
  cbn [dmn trace next_ref].
  destruct (status_loop _ _ _ _) as [[[infos snap]| |] s1] eqn:Hloop; try discriminate.
  apply status_loop_reports in Hloop as (_ & Hev & Hm & Hc & Hcfg).
  simpl in Hev, Hm, Hc, Hcfg.
  intros Heq; inversion Heq; subst; clear Heq. simpl.
  rewrite Hev, Hm, Hc, Hcfg.
  repeat split; try reflexivity.
  - destruct (20 <? length (events (dmn s)))%nat; [apply suffix_drop | reflexivity].
  - destruct (20 <? length (events (dmn s)))%nat eqn:Hlen.
    + apply Nat.ltb_lt in Hlen. unfold Go.last_n. rewrite length_drop. lia.
    + apply Nat.ltb_ge in Hlen. lia.
Qed.

(** ** Logs *)

Lemma append_cons (c : ascii) (a b : string) : String c a +:+ b = String c (a +:+ b).
Proof. reflexivity. Qed.

Lemma append_assoc (a b c : string) : (a +:+ b) +:+ c = a +:+ (b +:+ c).
Proof.
  induction a as [|x a IH]; [reflexivity|].
  rewrite !append_cons. f_equal. exact IH.
Qed.

Lemma append_nil_r (a : string) : a +:+ "" = a.
Proof.
  induction a as [|x a IH]; [reflexivity|]. rewrite append_cons. f_equal. exact IH.
Qed.

Lemma has_newline_snoc (a : string) (c : ascii) :
  has_newline (a +:+ String c "") = has_newline a || Ascii.eqb c "010"%char.
Proof.
  induction a as [|x a IH]; [apply orb_false_r|].
  rewrite append_cons. cbn [has_newline]. rewrite IH. apply orb_assoc.
Qed.

Lemma ends_with_newline_app (a b : string) :
  b <> "" -> ends_with_newline (a +:+ b) = ends_with_newline b.
Proof.
  intros Hb. induction a as [|x a IH]; [reflexivity|].
  rewrite append_cons. cbn [ends_with_newline].
  destruct (a +:+ b) eqn:Hab; [|exact IH].
  destruct a; [cbv in Hab; congruence | rewrite append_cons in Hab; discriminate].
Qed.

Lemma terminated_no_newline (a : string) :
  a <> "" -> has_newline a = false -> terminated a = a +:+ String "010"%char "".
Proof.
  intros Ha Hn. unfold terminated. destruct a as [|x a]; [congruence|].
  assert (Hend : ends_with_newline (String x a) = false).
  { clear Ha. revert x Hn. induction a as [|y a IH]; intros x Hn; cbn [has_newline] in Hn.
    - apply orb_false_elim in Hn as [Hx _]. exact Hx.
    - apply orb_false_elim in Hn as [_ Hn]. apply (IH y). exact Hn. }
  rewrite Hend. reflexivity.
Qed.

Lemma terminated_after_newline (a rest : string) :
  terminated (a +:+ String "010"%char rest) = a +:+ String "010"%char (terminated rest).
Proof.
  unfold terminated at 1.
  destruct (a +:+ String "010"%char rest) eqn:Hwhole.
  { destruct a; [cbv in Hwhole | rewrite append_cons in Hwhole]; discriminate. }
  rewrite <- Hwhole. clear Hwhole.
  rewrite ends_with_newline_app by discriminate.
  destruct rest as [|r rest']; [reflexivity|].
  change (terminated (String r rest'))
    with (if ends_with_newline (String r rest') then String r rest'
          else String r rest' +:+ String "010"%char "").
  change (ends_with_newline (String "010"%char (String r rest')))
    with (ends_with_newline (String r rest')).
  destruct (ends_with_newline (String r rest')); [reflexivity|].
  rewrite append_assoc. reflexivity.
Qed.

Lemma splitLines_from_spec (s : string) :
  forall line : string,
    has_newline line = false ->
    unlines (splitLines_from line s) = terminated (line +:+ s)
    /\ Forall (fun l => has_newline l = false) (splitLines_from line s).
Proof.
  induction s as [|c rest IH]; intros line Hline; cbn [splitLines_from].
  - rewrite append_nil_r. destruct (String.eqb line "") eqn:Hempty.
    + apply String.eqb_eq in Hempty. subst. split; [reflexivity | constructor].
    + apply String.eqb_neq in Hempty. cbn [unlines].
      rewrite terminated_no_newline by assumption.
      split; [reflexivity | repeat constructor; assumption].
  - destruct (Ascii.eqb c "010"%char) eqn:Hc.
    + apply Ascii.eqb_eq in Hc. subst c. cbn [unlines].
      destruct (IH "" eq_refl) as [Hrest Hall].
      change ("" +:+ rest) with rest in Hrest. rewrite Hrest.
      split; [|constructor; assumption].
      symmetry. apply terminated_after_newline.
    + destruct (IH (line +:+ String c "")) as [Hrest Hall].
      { rewrite has_newline_snoc, Hline, Hc. reflexivity. }
      rewrite append_assoc in Hrest. split; assumption.
Qed.

(** X13. [splitLines] cuts a text at its line feeds: no line it returns
    contains a line feed, and putting the lines back, each followed by a
    line feed, gives the text with its last line terminated (so the empty
    text has no line, and a final line feed adds no empty line). *)
Theorem splitLines_round_trip (s : string) :
  unlines (splitLines s) = terminated s
  /\ Forall (fun l => has_newline l = false) (splitLines s).
Proof. unfold splitLines. exact (splitLines_from_spec s "" eq_refl). Qed.

(** X14. Logs of a registered process reads its log file and returns the
    lines from the end: all of them when the count is not positive, the
    last [lines] of them otherwise.  The registry is untouched.  A read
    error comes back under [reading logs], an unknown name as not
    found, before any file is read. *)
Theorem Logs_returns_the_last_lines (name : string) (lines : Z) (s : Sys) (p : Proc) :
  procs (dmn s) !! name = Some p ->
  let after := {| dmn := dmn s; trace := trace s ++ [ReadFile (LogPath p)];
                  next_ref := next_ref s |} in
  match host_read_file (trace s) (LogPath p) with
  | inl content =>
      exists out : list string,
        Logs name lines s = (Done {| Lines := out |}, after)
        /\ out `suffix_of` splitLines content
        /\ length out =
             (if 0 <? lines then Nat.min (length (splitLines content)) (Z.to_nat lines)
              else length (splitLines content))
  | inr msg => Logs name lines s = (Failed (Wrapped "reading logs" (OSError msg)), after)
  end
  /\ forall other : string,
       procs (dmn s) !! other = None -> Logs other lines s = (Failed (NotFound other), s).
Proof.
  intros Hp. simpl. split.
  - unfold Logs. unmonad. rewrite Hp. simpl.
    destruct (host_read_file _ _) as [content|msg]; [|reflexivity].
    eexists. split; [reflexivity|].
    destruct (0 <? lines) eqn:Hpos; simpl.
    + destruct (lines <? Z.of_nat (length (splitLines content))) eqn:Hlt.
      * split; [apply suffix_drop|]. unfold Go.last_n. rewrite length_drop.
        apply Z.ltb_lt in Hpos, Hlt. lia.
      * split; [reflexivity|]. apply Z.ltb_lt in Hpos. apply Z.ltb_ge in Hlt. lia.
    + split; reflexivity.
  - intros other Hother. unfold Logs. unmonad. rewrite Hother. reflexivity.
Qed.

(** ** The environment of a child *)

Lemma extend_PYTHONPATH_spec (extra : string) (env : list string) :
  match extend_PYTHONPATH extra env with
  | Some env' =>
      exists (before : list string) (e : string) (rest : list string),
        env = before ++ e :: rest
        /\ env' = before ++ (e +:+ ":" +:+ extra) :: rest
        /\ Go.has_prefix "PYTHONPATH=" e = true
        /\ Forall (fun x => Go.has_prefix "PYTHONPATH=" x = false) before
  | None => Forall (fun x => Go.has_prefix "PYTHONPATH=" x = false) env
  end.
Proof.
  induction env as [|e env IH]; cbn [extend_PYTHONPATH]; [constructor|].
  destruct (Go.has_prefix "PYTHONPATH=" e) eqn:He.
  - exists [], e, env. repeat split; [assumption | constructor].
  - destruct (extend_PYTHONPATH extra env) as [env'|]; simpl.
    + destruct IH as (before & e' & rest & -> & -> & He' & Hbefore).
      exists (e :: before), e', rest. repeat split; [assumption|].
      constructor; assumption.
    + constructor; assumption.
Qed.

(** X15. [appendPythonPath] leaves the environment alone when no
    site-packages directory is found.  Otherwise it appends the found
    directories, joined by colons, to the first PYTHONPATH variable of the
    environment, after a colon, and touches no other variable; when the
    environment has no PYTHONPATH it adds one at the end.  It performs no
    effect. *)
Theorem appendPythonPath_extends_the_first (env : list string) (tr : Trace) :
  snd (appendPythonPath env tr) = tr
  /\ match host_site_packages tr with
     | [] => fst (appendPythonPath env tr) = env
     | found =>
         let extra := Go.join ":" found in
         (Forall (fun x => Go.has_prefix "PYTHONPATH=" x = false) env
          /\ fst (appendPythonPath env tr) = env ++ ["PYTHONPATH=" +:+ extra])
         \/ (exists (before : list string) (e : string) (rest : list string),
               env = before ++ e :: rest
               /\ fst (appendPythonPath env tr) = before ++ (e +:+ ":" +:+ extra) :: rest
               /\ Go.has_prefix "PYTHONPATH=" e = true
               /\ Forall (fun x => Go.has_prefix "PYTHONPATH=" x = false) before)
     end.
Proof.
  unfold appendPythonPath.
  destruct (host_site_packages tr) as [|d ds] eqn:Hfound.
  - simpl. split; reflexivity.
  - cbn [length Nat.eqb].
    pose proof (extend_PYTHONPATH_spec (Go.join ":" (d :: ds)) env) as Hspec.
    destruct (extend_PYTHONPATH _ env) as [env'|]; cbn [fst snd].
    + split; [reflexivity|]. right. exact Hspec.
    + split; [reflexivity|]. left. split; [exact Hspec | reflexivity].
Qed.

(** ** Events and subscribers *)

(** X16. A subscriber that subscribed before a Run that succeeds finds the
    [run] event of that process at the end of its channel, unless the
    channel was full; every subscriber that was there before the Run is
    still there, in the same order. *)
Theorem subscriber_receives_the_run_event (params : RunParams) (s s1 s2 : Sys)
    (ch : nat) (r : RunResult) :
  Subscribe s = (Done ch, s1) ->
  Run params s1 = (Done r, s2) ->
  exists ev : Event,
    Type_ ev = "run" /\ Process ev = rp_Name params
    /\ subs (dmn s2) = map (send ev) (subs (dmn s) ++ [{| chan_id := ch; buffer := [] |}])
    /\ last (subs (dmn s2)) = Some {| chan_id := ch; buffer := [ev] |}
    /\ last (events (dmn s2)) = Some ev.
Proof.
  unfold Subscribe. unmonad. intros Hsub. inversion Hsub; subst; clear Hsub.
  unfold Run. unmonad. cbn [dmn trace next_ref procs cfg set_subs].
  destruct (procs (dmn s) !! rp_Name params); [discriminate|].
  destruct (length (rp_Cmd params) =? 0)%nat; [discriminate|].
  destruct (host_create _ _); [discriminate|]. cbn beta iota.
  cbn [dmn trace next_ref].
  destruct (host_getuid _ =? 0); cbn beta iota.
  - destruct (appendPythonPath _ _) as [env tr1]. cbn beta iota. cbn [dmn trace next_ref].
    destruct (host_start _ _ _ _) as [pid|msg]; [|discriminate].
    unfold emit. unmonad. cbn [dmn trace next_ref].
    intros Heq; inversion Heq; subst; clear Heq.
    cbn [dmn subs events set_subs set_events set_metrics set_procs].
    match goal with |- context [map (send ?e)] => exists e end.
    split; [reflexivity|]. split; [reflexivity|]. split; [reflexivity|].
    split; [rewrite map_app; apply last_snoc | apply last_trimmed].
  - destruct (host_start _ _ _ _) as [pid|msg]; [|discriminate].
    unfold emit. unmonad. cbn [dmn trace next_ref].
    intros Heq; inversion Heq; subst; clear Heq.
    cbn [dmn subs events set_subs set_events set_metrics set_procs].
    match goal with |- context [map (send ?e)] => exists e end.
    split; [reflexivity|]. split; [reflexivity|]. split; [reflexivity|].
    split; [rewrite map_app; apply last_snoc | apply last_trimmed].
Qed.

(** X17. The exit watcher marks a registered entry that is not Dead as
    Dead, keeps it in the registry with every other field as it was,
    closes its log and records an [exit] event whose detail is the wait
    error, or [exited] without one.  On an entry that is already Dead, or
    on a name that is no longer registered (killed in the meantime), it
    does nothing at all. *)
Theorem monitorProcess_marks_dead_once (name : string) (err : option string) (s : Sys) :
  match procs (dmn s) !! name with
  | None => monitorProcess name err s = (Done tt, s)
  | Some p =>
      if state_eqb (State p) StateDead
      then monitorProcess name err s = (Done tt, s)
      else exists (s' : Sys) (ev : Event),
          monitorProcess name err s = (Done tt, s')
          /\ procs (dmn s') = <[name := set_State StateDead p]> (procs (dmn s))
          /\ metrics (dmn s') = metrics (dmn s)
          /\ trace s' =
               trace s ++ (match logFile p with Some f => [Close f] | None => [] end)
                       ++ [Now]
          /\ last (events (dmn s')) = Some ev
          /\ Type_ ev = "exit" /\ Process ev = name
          /\ Detail ev = (match err with Some msg => msg | None => "exited" end)
          /\ monitorProcess name err s' = (Done tt, s')
  end.
Proof.
  destruct (procs (dmn s) !! name) as [p|] eqn:Hp.
  2:{ unfold monitorProcess. unmonad. rewrite Hp. reflexivity. }
  destruct (state_eqb (State p) StateDead) eqn:Hst.
  { unfold monitorProcess. unmonad. rewrite Hp, Hst. reflexivity. }
  unfold monitorProcess at 1. unmonad. rewrite Hp, Hst.
  unfold close_log, emit. unmonad. cbn [set_State logFile].
  destruct (logFile p) as [f|]; cbn [dmn trace next_ref];
    (eexists _, _; split; [reflexivity|]);
    cbn [dmn trace next_ref procs metrics events set_procs set_subs set_events];
    (split; [reflexivity|]); (split; [reflexivity|]);
    (split; [rewrite <- ?app_assoc; reflexivity|]);
    (split; [apply last_trimmed|]);
    (split; [reflexivity|]); (split; [reflexivity|]); (split; [reflexivity|]);
    unfold monitorProcess; unmonad;
    cbn [dmn trace next_ref procs set_procs set_subs set_events];
    rewrite lookup_insert_eq; reflexivity.
Qed.

(** ** The router and the connection handler *)

(** X18. A request whose parameters do not decode is answered with
    [bad params: ...] and a request with an unknown method with
    [unknown method: ...]; in both cases no registry method runs: the
    request is counted, and nothing else changes and no effect occurs. *)
Theorem Handle_rejects_before_the_registry (req : Request) (s : Sys) (msg : string) :
  let bad := (Done (ErrResponse ("bad params: " +:+ msg)), counted s) in
  (Method req = "run" -> json_run (Params req) = inr msg -> Handle req s = bad)
  /\ (Method req = "freeze" -> json_name (Params req) = inr msg -> Handle req s = bad)
  /\ (Method req = "thaw" -> json_name (Params req) = inr msg -> Handle req s = bad)
  /\ (Method req = "kill" -> json_name (Params req) = inr msg -> Handle req s = bad)
  /\ (Method req = "migrate" -> json_migrate (Params req) = inr msg -> Handle req s = bad)
  /\ (Method req = "logs" -> json_logs (Params req) = inr msg -> Handle req s = bad)
  /\ (Method req ∉ ["run"; "freeze"; "thaw"; "kill"; "migrate"; "status"; "logs"] ->
      Handle req s =
        (Done (ErrResponse ("unknown method: " +:+ Method req)), counted s)).
Proof.
  simpl. unfold Handle, bad_params. unmonad. cbn beta iota.
  change {| dmn := _; trace := trace s; next_ref := next_ref s |} with (counted s).
  repeat split; try (intros -> ->; reflexivity).
  intros Hnot.
  repeat match goal with
         | |- context [String.eqb (Method req) ?m] =>
             let E := fresh "E" in
             destruct (String.eqb (Method req) m) eqn:E;
             [apply String.eqb_eq in E; exfalso; apply Hnot; rewrite E;
              repeat constructor|]
         end.
  reflexivity.
Qed.

Lemma status_loop_returns (entries : list (string * Proc)) :
  forall (infos : list ProcessInfo) (snap : Z) (s : Sys),
    exists (r : list ProcessInfo * Z) (s' : Sys),
      status_loop entries infos snap s = (Done r, s').
Proof.
  induction entries as [|[name p] rest IH]; intros infos snap s.
  - simpl. unmonad. eexists _, _. reflexivity.
  - cbn [status_loop]. unfold time_Since. unmonad.
    destruct (state_eqb (State p) StateActive); cbn beta iota; apply IH.
Qed.

Lemma Status_returns (s : Sys) :
  exists (r : StatusResult) (s' : Sys), Status s = (Done r, s').
Proof.
  unfold Status. unmonad. cbn beta iota.
  destruct (host_mem_info _) as [totalRAM freeRAM]. cbn beta iota.
  cbn [dmn trace next_ref].
  destruct (status_loop_returns (range_order (map_to_list (procs (dmn s)))) [] 0
              {| dmn := dmn s; trace := (trace s ++ [QueryGPUs]) ++ [HostMem];
                 next_ref := next_ref s |}) as ([infos snap] & s1 & Hloop).
  rewrite Hloop. cbn beta iota. eexists _, _. reflexivity.
Qed.

Lemma Handle_response (req : Request) (s s' : Sys) (out : Outcome Response) :
  Handle req s = (out, s') ->
  match out with
  | Done resp => well_shaped resp
  | Failed _ => False
  | Panicked => True
  end.
Proof.
  unfold Handle, bad_params. unmonad. cbn beta iota.
  repeat break_match;
    try (intros Heq; inversion Heq; subst; right; split; reflexivity);
    unfold reply; intros Heq;
    match type of Heq with
    | (let (_, _) := ?m ?st in _) = _ =>
        destruct (m st) as [[?|?|] ?]; inversion Heq; subst
    end;
    first [ exact I
          | left; repeat split; eexists; reflexivity
          | right; split; reflexivity ].
Qed.

(** X19. Every line that the connection handler has served got exactly
    one answer, written to the connection as the last effect of the turn,
    and the answer is a response of the right shape: a success with a
    result, or a failure with an error text.  A Go error of a registry
    method never escapes the handler: it is turned into the error text.
    A line that is not valid JSON is answered with [invalid json: ...]
    and changes nothing in the daemon. *)
Theorem handleConn_answers_every_line (line : string) (s s' : Sys) (out : Outcome unit) :
  handleConn line s = (out, s') ->
  (forall e : error, out <> Failed e)
  /\ (out = Done tt ->
      exists (before : Trace) (resp : Response),
        trace s' = before ++ [ConnWrite (WResponse resp)] /\ well_shaped resp)
  /\ (forall msg : string, json_request line = inr msg ->
      out = Done tt /\ dmn s' = dmn s
      /\ trace s' = trace s ++ [ConnWrite (WResponse (ErrResponse ("invalid json: " +:+ msg)))]).
Proof.
  unfold handleConn.
  destruct (json_request line) as [req|msg].
  - destruct (String.eqb (Method req) "subscribe").
    + unfold handleSubscribe, Subscribe. unmonad. cbn beta iota.
      match goal with
      | |- context [Status ?st] => destruct (Status_returns st) as (r & s1 & Hst)
      end.
      rewrite Hst. cbn beta iota.
      intros Heq; inversion Heq; subst.
      split; [intros ?; discriminate|].
      split; [|intros ? ?; discriminate].
      intros _. eexists _, _. split; [reflexivity|].
      left. repeat split. eexists; reflexivity.
    + unfold mbind, D_bind.
      destruct (Handle req s) as [out0 s0] eqn:Hh.
      apply Handle_response in Hh.
      destruct out0 as [resp| |]; [| contradiction |]; unmonad;
        intros Heq; inversion Heq; subst;
        (split; [intros ?; discriminate|]);
        (split; [|intros ? ?; discriminate]);
        intros Hdone; try discriminate.
      eexists _, _. split; [reflexivity | exact Hh].
  - unmonad. intros Heq; inversion Heq; subst.
    split; [intros ?; discriminate|].
    split.
    + intros _. eexists _, _. split; [reflexivity|]. right. split; reflexivity.
    + intros msg' Hmsg. inversion Hmsg; subst. repeat split; reflexivity.
Qed.

(** ** Shutdown *)

Lemma shutdown_loop_trace (entries : list (string * Proc)) :
  forall (s s' : Sys) (out : Outcome unit),
    shutdown_loop entries s = (out, s') ->
    trace s' = trace s ++ flat_map (fun e => farewell (snd e)) entries.
Proof.
  induction entries as [|[name p] rest IH]; intros s s' out.
  - simpl. unmonad. intros Heq; inversion Heq; subst. rewrite app_nil_r. reflexivity.
  - cbn [shutdown_loop flat_map snd]. unfold close_log, farewell. unmonad.
    destruct (State p); destruct (logFile p); cbn beta iota;
      intros Hrec; apply IH in Hrec; rewrite Hrec; cbn [trace];
      rewrite <- ?app_assoc; reflexivity.
Qed.

(** X20. Shutdown always returns.  It visits every registered entry
    once: an Active entry gets TERM, a Frozen entry CONT and then TERM, a
    Dead entry no signal, and each log is closed; nothing else happens.
    All subscribers are dropped, and the registry, the events and the
    metrics are left as they were. *)
Theorem Shutdown_signals_every_entry_once (s : Sys) :
  exists (s' : Sys) (visited : list Proc),
    Shutdown s = (Done tt, s')
    /\ Permutation visited (map snd (map_to_list (procs (dmn s))))
    /\ trace s' = trace s ++ flat_map farewell visited
    /\ subs (dmn s') = []
    /\ procs (dmn s') = procs (dmn s)
    /\ events (dmn s') = events (dmn s)
    /\ metrics (dmn s') = metrics (dmn s).
Proof.
  unfold Shutdown. unmonad.
  destruct (shutdown_loop _ _) as [out1 s1] eqn:Hloop.
  pose proof (shutdown_loop_trace _ _ _ _ Hloop) as Htrace.
  apply shutdown_loop_frame in Hloop as [-> Hd].
  eexists _, (map snd (range_order (map_to_list (procs (dmn s))))).
  split; [reflexivity|]. cbn [dmn trace subs procs events metrics set_subs].
  split; [apply Permutation_map; apply range_order_perm|].
  split.
  { rewrite Htrace. f_equal.
    generalize (range_order (map_to_list (procs (dmn s)))). intros l.
    induction l as [|e l IH]; simpl; [reflexivity | f_equal; exact IH]. }
  rewrite Hd. repeat split; reflexivity.
Qed.

(** ** Other entries *)

Ltac frame_done :=
  let Heq := fresh "Heq" in
  intros Heq; inversion Heq; subst; clear Heq; simpl;
  rewrite ?lookup_delete_ne, ?lookup_insert_ne by congruence; reflexivity.

Ltac frame_op := unmonad; unfold emit, close_log, refresh; unmonad;
                 repeat (simpl; break_match); simpl; frame_done.

(** X21. A lifecycle operation on one name never touches the entry of
    another name, whatever its outcome: Run, Freeze, Thaw, Kill, Migrate,
    the exit watcher and the VRAM sampler leave every other entry of the
    registry exactly as it was. *)
Theorem operations_touch_one_entry (name other : string) (s s' : Sys) :
  other <> name ->
  (exists params out, rp_Name params = name /\ Run params s = (out, s'))
  \/ (exists out, Freeze name s = (out, s'))
  \/ (exists out, Thaw name s = (out, s'))
  \/ (exists out, Kill name s = (out, s'))
  \/ (exists params out, mp_Name params = name /\ Migrate params s = (out, s'))
  \/ (exists err out, monitorProcess name err s = (out, s'))
  \/ (exists cmd out, sample name cmd s = (out, s')) ->
  procs (dmn s') !! other = procs (dmn s) !! other.
Proof.
  intros Hne [(params & out & <- & Hop) | [(out & Hop) | [(out & Hop) | [(out & Hop)
           | [(params & out & <- & Hop) | [(err & out & Hop) | (cmd & out & Hop)]]]]]];
    revert Hop.
  - unfold Run. frame_op.
  - unfold Freeze. frame_op.
  - unfold Thaw. frame_op.
  - unfold Kill. frame_op.
  - unfold Migrate. frame_op.
  - unfold monitorProcess. frame_op.
  - unfold sample. frame_op.
Qed.

(** ** The order of the steps *)

Lemma adapter_Freeze_ok (c : checkpoint.CUDA) (pid dur : Z) (tr tr' : Trace) :
  checkpoint.Freeze c pid tr = ((dur, None), tr') ->
  checkpoint.Available c = true
  /\ tr' = tr ++ [invoke c "lock" pid; invoke c "checkpoint" pid].
Proof.
  unfold checkpoint.Freeze, checkpoint.Lock, checkpoint.Checkpoint, checkpoint.Unlock.
  unmonad.
  destruct (checkpoint.Available c) eqn:Ha.
  2:{ rewrite run_unavailable by assumption. discriminate. }
  rewrite (run_available c "lock") by assumption.
  destruct (host_exec _ _ _) as [d1 [[o1 c1]|]]; [discriminate|].
  rewrite (run_available c "checkpoint") by assumption.
  destruct (host_exec _ _ _) as [d2 [[o2 c2]|]].
  - rewrite (run_available c "unlock") by assumption. discriminate.
  - intros Heq; inversion Heq; subst. split; [reflexivity|].
    rewrite <- app_assoc. reflexivity.
Qed.

Lemma adapter_Thaw_ok (c : checkpoint.CUDA) (pid dur : Z) (tr tr' : Trace) :
  checkpoint.Thaw c pid tr = ((dur, None), tr') ->
  checkpoint.Available c = true
  /\ tr' = tr ++ [invoke c "restore" pid; invoke c "unlock" pid].
Proof.
  unfold checkpoint.Thaw, checkpoint.Restore, checkpoint.Unlock. unmonad.
  destruct (checkpoint.Available c) eqn:Ha.
  2:{ rewrite run_unavailable by assumption. discriminate. }
  rewrite (run_available c "restore") by assumption.
  destruct (host_exec _ _ _) as [d1 [[o1 c1]|]]; [discriminate|].
  rewrite (run_available c "unlock") by assumption.
  destruct (host_exec _ _ _) as [d2 [[o2 c2]|]]; [discriminate|].
  intros Heq; inversion Heq; subst. split; [reflexivity|].
  rewrite <- app_assoc. reflexivity.
Qed.

(** X22. A Freeze that succeeds did exactly this, in this order: query
    the VRAM, lock, checkpoint, send STOP, read the clock for the event.
    STOP is sent only after the checkpoint has succeeded, and the answer
    comes only after STOP.  One freeze is counted and its duration in
    milliseconds is added to the total. *)
Theorem Freeze_steps_in_order (name : string) (s s' : Sys) (fr : FreezeResult) :
  Freeze name s = (Done fr, s') ->
  exists p : Proc,
    procs (dmn s) !! name = Some p
    /\ trace s' =
         trace s ++ [GPUMem (PID p);
                     invoke (cuda (dmn s)) "lock" (PID p);
                     invoke (cuda (dmn s)) "checkpoint" (PID p);
                     SendSignal (PID p) SIGSTOP; Now]
    /\ Freezes (metrics (dmn s')) = Go.incr (Freezes (metrics (dmn s)))
    /\ freezeTotalMs (dmn s') = Go.add64 (freezeTotalMs (dmn s)) (fr_DurationMs fr)
    /\ Thaws (metrics (dmn s')) = Thaws (metrics (dmn s)).
Proof.
  unfold Freeze. unmonad.
  destruct (procs (dmn s) !! name) as [p|] eqn:Hp; [|discriminate].
  destruct (state_eqb (State p) StateActive) eqn:Hst; [|discriminate].
  destruct (checkpoint.Available (cuda (dmn s))); [|discriminate].
  simpl.
  assert (Hpid : PID (refresh (host_gpu_mem (trace s) (PID p)) p) = PID p)
    by (unfold refresh; destruct (0 <? _); reflexivity).
  rewrite Hpid.
  destruct (checkpoint.Freeze _ _ _) as [[dur [e|]] tr'] eqn:Hf; [discriminate|].
  apply adapter_Freeze_ok in Hf as [_ ->].
  simpl.
  destruct (Go.div64 _ _) as [avg|]; [|discriminate].
  unfold emit. unmonad. simpl.
  intros Heq. inversion Heq; subst; clear Heq. simpl.
  exists p. split; [reflexivity|].
  split; [rewrite <- !app_assoc; reflexivity|].
  repeat split; reflexivity.
Qed.

(** X23. A Thaw that succeeds did exactly this, in this order: send
    CONT, restore, unlock, read the clock for the event.  The answer
    comes only after CONT was sent and the restore has succeeded.  One
    thaw is counted and its duration in milliseconds is added to the
    total. *)
Theorem Thaw_steps_in_order (name : string) (s s' : Sys) (tr : ThawResult) :
  Thaw name s = (Done tr, s') ->
  exists p : Proc,
    procs (dmn s) !! name = Some p
    /\ trace s' =
         trace s ++ [SendSignal (PID p) SIGCONT;
                     invoke (cuda (dmn s)) "restore" (PID p);
                     invoke (cuda (dmn s)) "unlock" (PID p); Now]
    /\ Thaws (metrics (dmn s')) = Go.incr (Thaws (metrics (dmn s)))
    /\ thawTotalMs (dmn s') = Go.add64 (thawTotalMs (dmn s)) (tr_DurationMs tr)
    /\ Freezes (metrics (dmn s')) = Freezes (metrics (dmn s))
    /\ tr_Name tr = Name p /\ tr_MemMB tr = MemMB p.
Proof.
  unfold Thaw. unmonad.
  destruct (procs (dmn s) !! name) as [p|] eqn:Hp; [|discriminate].
  destruct (state_eqb (State p) StateFrozen) eqn:Hst; [|discriminate].
  simpl.
  destruct (checkpoint.Thaw _ _ _) as [[dur [e|]] tr'] eqn:Ht; [discriminate|].
  apply adapter_Thaw_ok in Ht as [_ ->].
  simpl.
  destruct (Go.div64 _ _) as [avg|]; [|discriminate].
  unfold emit. unmonad. simpl.
  intros Heq. inversion Heq; subst; clear Heq. simpl.
  exists p. split; [reflexivity|].
  split; [rewrite <- !app_assoc; reflexivity|].
  repeat split; reflexivity.
Qed.

(** X24. A Migrate of an Active entry that succeeds did exactly this, in
    this order: query the VRAM, lock, checkpoint, send STOP, send CONT,
    restore on the target device, unlock, read the clock for the event.
    It answers with the GPU the entry was on and the target, counts one
    migration, and counts neither a freeze nor a thaw. *)
Theorem Migrate_steps_in_order (params : MigrateParams) (s s' : Sys) (p : Proc)
    (r : MigrateResult) :
  procs (dmn s) !! mp_Name params = Some p ->
  State p = StateActive ->
  Migrate params s = (Done r, s') ->
  let c := cuda (dmn s) in
  trace s' =
    trace s ++ [GPUMem (PID p); invoke c "lock" (PID p); invoke c "checkpoint" (PID p);
                SendSignal (PID p) SIGSTOP; SendSignal (PID p) SIGCONT;
                Exec (checkpoint.Binary c)
                  ["--action"; "restore"; "--pid"; Go.itoa (PID p);
                   "--device"; Go.itoa (mp_GPU params)];
                invoke c "unlock" (PID p); Now]
  /\ r = {| mr_Name := mp_Name params; FromGPU := GPU p; ToGPU := mp_GPU params |}
  /\ Migrations (metrics (dmn s')) = Go.incr (Migrations (metrics (dmn s)))
  /\ Freezes (metrics (dmn s')) = Freezes (metrics (dmn s))
  /\ Thaws (metrics (dmn s')) = Thaws (metrics (dmn s)).
Proof.
  intros Hp Hst. simpl. unfold Migrate. unmonad. rewrite Hp, Hst.
  destruct (checkpoint.Available (cuda (dmn s))) eqn:Ha; [|discriminate].
  simpl.
  assert (Hpid : PID (refresh (host_gpu_mem (trace s) (PID p)) p) = PID p)
    by (unfold refresh; destruct (0 <? _); reflexivity).
  assert (Hgpu : GPU (refresh (host_gpu_mem (trace s) (PID p)) p) = GPU p)
    by (unfold refresh; destruct (0 <? _); reflexivity).
  rewrite Hpid.
  destruct (checkpoint.Freeze _ _ _) as [[fdur [fe|]] trf] eqn:Hf; [discriminate|].
  apply adapter_Freeze_ok in Hf as [_ ->].
  simpl. rewrite Hpid.
  unfold checkpoint.RestoreOnDevice, checkpoint.exec. rewrite Ha. unmonad. simpl.
  destruct (host_exec _ _ _) as [dur [[out cause]|]]; [discriminate|].
  simpl. unfold checkpoint.Unlock.
  rewrite (run_available _ "unlock") by assumption.
  destruct (host_exec _ _ _) as [udur [[out cause]|]]; [discriminate|].
  unfold emit. unmonad. simpl.
  intros Heq. inversion Heq; subst; clear Heq. simpl.
  split; [rewrite <- !app_assoc; reflexivity|].
  repeat split; reflexivity.
Qed.

(** ** The snapshot memory of a status *)

Lemma wrap64_add_l (a b : Z) : Go.wrap64 (Go.wrap64 a + b) = Go.wrap64 (a + b).
Proof.
  unfold Go.wrap64. f_equal.
  replace ((a + 2 ^ 63) mod 2 ^ 64 - 2 ^ 63 + b + 2 ^ 63)
    with ((a + 2 ^ 63) mod 2 ^ 64 + b) by lia.
  rewrite Zplus_mod_idemp_l. f_equal. lia.
Qed.

Lemma wrap64_idem (a : Z) : Go.wrap64 (Go.wrap64 a) = Go.wrap64 a.
Proof.
  pose proof (wrap64_add_l a 0) as Hadd. rewrite !Z.add_0_r in Hadd. exact Hadd.
Qed.

Lemma frozen_mem_perm (l1 l2 : list ProcessInfo) :
  Permutation l1 l2 -> frozen_mem l1 = frozen_mem l2.
Proof.
  induction 1 as [|x l l' _ IH|x y l|l l' l'' _ IH1 _ IH2]; simpl.
  - reflexivity.
  - rewrite IH. reflexivity.
  - destruct (state_eqb (pi_State x) StateFrozen), (state_eqb (pi_State y) StateFrozen); lia.
  - congruence.
Qed.

Lemma status_loop_snapshots (entries : list (string * Proc)) :
  forall (infos infos' : list ProcessInfo) (snap snap' : Z) (s s' : Sys),
    status_loop entries infos snap s = (Done (infos', snap'), s') ->
    Go.wrap64 snap = snap ->
    exists new : list ProcessInfo,
      infos' = infos ++ new /\ snap' = Go.wrap64 (snap + frozen_mem new).
Proof.
  induction entries as [|[name p] rest IH]; intros infos infos' snap snap' s s'.
  - simpl. unmonad. intros Heq Hsnap; inversion Heq; subst.
    exists []. rewrite app_nil_r. simpl. rewrite Z.add_0_r, Hsnap. split; reflexivity.
  - cbn [status_loop]. unfold time_Since. unmonad.
    destruct (state_eqb (State p) StateActive) eqn:Hst; cbn beta iota.
    + assert (Hnot : state_eqb (State (refresh (host_gpu_mem (trace s) (PID p)) p))
                       StateFrozen = false).
      { apply state_eqb_eq in Hst. unfold refresh. destruct (0 <? _); simpl; rewrite Hst;
          reflexivity. }
      rewrite Hnot. intros Hrec Hsnap.
      apply IH in Hrec as (new & -> & ->); [|exact Hsnap].
      eexists (_ :: new). split; [rewrite <- app_assoc; reflexivity|].
      simpl. rewrite Hnot. reflexivity.
    + destruct (state_eqb (State p) StateFrozen) eqn:Hfr; intros Hrec Hsnap.
      * apply IH in Hrec as (new & -> & ->); [|apply wrap64_idem].
        eexists (_ :: new). split; [rewrite <- app_assoc; reflexivity|].
        simpl. rewrite Hfr. unfold Go.add64. rewrite wrap64_add_l. f_equal. lia.
      * apply IH in Hrec as (new & -> & ->); [|exact Hsnap].
        eexists (_ :: new). split; [rewrite <- app_assoc; reflexivity|].
        simpl. rewrite Hfr. reflexivity.
Qed.

(** X25. The snapshot memory that a status reports is the sum of the
    memory figures of the Frozen lines of that same status, as a 64-bit
    sum; lines that are Active or Dead add nothing to it, and the disk
    figures are always zero. *)
Theorem Status_sums_the_frozen_memory (s s' : Sys) (r : StatusResult) :
  Status s = (Done r, s') ->
  SnapshotsMB (Memory r) = Go.wrap64 (frozen_mem (Processes r))
  /\ DiskUsedMB (Memory r) = 0 /\ DiskBudgetMB (Memory r) = 0.
Proof.
  unfold Status. unmonad. cbn beta iota.
  destruct (host_mem_info _) as [totalRAM freeRAM]. cbn beta iota.
  cbn [dmn trace next_ref].
  destruct (status_loop _ _ _ _) as [[[infos snap]| |] s1] eqn:Hloop; try discriminate.
  apply status_loop_snapshots in Hloop as (new & Hinfos & Hsnap); [|reflexivity].
  simpl in Hinfos, Hsnap. subst infos.
  intros Heq; inversion Heq; subst; clear Heq. simpl.
  split; [|split; reflexivity].
  f_equal. apply frozen_mem_perm. symmetry. apply sort_Slice_perm.
Qed.

(** ** Subscriber channels *)

Lemma send_ids (e : Event) (l : list Chan) : map chan_id (map (send e) l) = map chan_id l.
Proof.
  induction l as [|c l IH]; simpl; [reflexivity|].
  rewrite IH. unfold send. destruct (_ <? _)%nat; reflexivity.
Qed.

Ltac chan_done :=
  let Heq := fresh "Heq" in
  intros Heq; inversion Heq; subst; clear Heq;
  unfold keeps_channels, channel_ids; simpl; rewrite ?send_ids;
  split; [reflexivity | lia].

Ltac chan_op := unmonad; unfold emit, close_log, refresh; unmonad;
                repeat (simpl; break_match); simpl; chan_done.

Lemma keeps_channels_trans (s1 s2 s3 : Sys) :
  keeps_channels s1 s2 -> keeps_channels s2 s3 -> keeps_channels s1 s3.
Proof. intros [H1 H2] [H3 H4]. split; [congruence | lia]. Qed.

Lemma Run_keeps_channels (params : RunParams) (s s' : Sys) (out : Outcome RunResult) :
  Run params s = (out, s') -> keeps_channels s s'.
Proof. unfold Run. chan_op. Qed.

Lemma Freeze_keeps_channels (name : string) (s s' : Sys) (out : Outcome FreezeResult) :
  Freeze name s = (out, s') -> keeps_channels s s'.
Proof. unfold Freeze. chan_op. Qed.

Lemma Thaw_keeps_channels (name : string) (s s' : Sys) (out : Outcome ThawResult) :
  Thaw name s = (out, s') -> keeps_channels s s'.
Proof. unfold Thaw. chan_op. Qed.

Lemma Kill_keeps_channels (name : string) (s s' : Sys) (out : Outcome unit) :
  Kill name s = (out, s') -> keeps_channels s s'.
Proof. unfold Kill. chan_op. Qed.

Lemma Migrate_keeps_channels (params : MigrateParams) (s s' : Sys)
    (out : Outcome MigrateResult) :
  Migrate params s = (out, s') -> keeps_channels s s'.
Proof. unfold Migrate. chan_op. Qed.

Lemma Logs_keeps_channels (name : string) (lines : Z) (s s' : Sys) (out : Outcome LogsResult) :
  Logs name lines s = (out, s') -> keeps_channels s s'.
Proof. unfold Logs. chan_op. Qed.

Lemma monitorProcess_keeps_channels (name : string) (err : option string) (s s' : Sys)
    (out : Outcome unit) :
  monitorProcess name err s = (out, s') -> keeps_channels s s'.
Proof. unfold monitorProcess. chan_op. Qed.

Lemma sample_keeps_channels (name : string) (cmd : nat) (s s' : Sys) (out : Outcome unit) :
  sample name cmd s = (out, s') -> keeps_channels s s'.
Proof. unfold sample. chan_op. Qed.

Lemma status_loop_keeps_channels (entries : list (string * Proc)) :
  forall (infos : list ProcessInfo) (snap : Z) (s s' : Sys)
         (out : Outcome (list ProcessInfo * Z)),
    status_loop entries infos snap s = (out, s') -> keeps_channels s s'.
Proof.
  induction entries as [|[name p] rest IH]; intros infos snap s s' out.
  - simpl. chan_op.
  - cbn [status_loop]. unfold time_Since. unmonad.
    destruct (state_eqb (State p) StateActive); cbn beta iota;
      intros Hrec; apply IH in Hrec as [Hids Href]; split; assumption.
Qed.

Lemma Status_keeps_channels (s s' : Sys) (out : Outcome StatusResult) :
  Status s = (out, s') -> keeps_channels s s'.
Proof.
  unfold Status. unmonad. cbn beta iota.
  destruct (host_mem_info _) as [totalRAM freeRAM]. cbn beta iota.
  cbn [dmn trace next_ref].
  destruct (status_loop _ _ _ _) as [out1 s1] eqn:Hloop.
  apply status_loop_keeps_channels in Hloop as [Hids Href].
  destruct out1 as [[infos snap]| |]; intros Heq; inversion Heq; subst;
    split; assumption.
Qed.

Lemma Handle_keeps_channels (req : Request) (s s' : Sys) (out : Outcome Response) :
  Handle req s = (out, s') -> keeps_channels s s'.
Proof.
  unfold Handle, bad_params. unmonad. cbn beta iota.
  change {| dmn := _; trace := trace s; next_ref := next_ref s |} with (counted s).
  assert (H0 : keeps_channels s (counted s)) by (split; [reflexivity | simpl; lia]).
  intros Heq. apply (keeps_channels_trans _ _ _ H0). clear H0. revert Heq.
  repeat break_match;
    try (intros Heq; inversion Heq; subst; split; [reflexivity | lia]);
    unfold reply; intros Heq;
    match type of Heq with
    | (let (_, _) := ?m (counted s) in _) = _ =>
        destruct (m (counted s)) as [[a|e|] s1] eqn:Hop;
        inversion Heq; subst
    end;
    first [ exact (Run_keeps_channels _ _ _ _ Hop)
          | exact (Freeze_keeps_channels _ _ _ _ Hop)
          | exact (Thaw_keeps_channels _ _ _ _ Hop)
          | exact (Kill_keeps_channels _ _ _ _ Hop)
          | exact (Migrate_keeps_channels _ _ _ _ Hop)
          | exact (Logs_keeps_channels _ _ _ _ _ Hop)
          | exact (Status_keeps_channels _ _ _ Hop) ].
Qed.

Lemma keeps_channels_fresh (s s' : Sys) :
  keeps_channels s s' -> channels_fresh s -> channels_fresh s'.
Proof.
  intros [Hids Href] [Hnd Hlt]. unfold channels_fresh. rewrite Hids.
  split; [exact Hnd|]. eapply Forall_impl; [exact Hlt|]. simpl. intros n Hn. lia.
Qed.

Lemma remove_chan_spec (c : Chan) (l : list Chan) :
  NoDup (map chan_id l) -> c ∈ l ->
  exists before after : list Chan,
    l = before ++ c :: after
    /\ remove_chan (chan_id c) l = before ++ after
    /\ (chan_id c ∉ map chan_id (before ++ after)).
Proof.
  induction l as [|x l IH]; intros Hnd Hin; [inversion Hin|].
  simpl in Hnd. apply NoDup_cons in Hnd as [Hx Hnd].
  apply elem_of_cons in Hin as [-> | Hin].
  - exists [], l. simpl. rewrite Nat.eqb_refl. split; [reflexivity|].
    split; [reflexivity | exact Hx].
  - assert (Hne : chan_id x <> chan_id c).
    { intros Heq. apply Hx. rewrite Heq. apply list_elem_of_In, in_map, list_elem_of_In.
      exact Hin. }
    destruct (IH Hnd Hin) as (before & after & Hl & Hrm & Hout).
    exists (x :: before), after. simpl.
    apply Nat.eqb_neq in Hne as Hneb. rewrite Hneb, Hrm, Hl.
    split; [reflexivity|]. split; [reflexivity|].
    apply not_elem_of_cons. split; [congruence | exact Hout].
Qed.

Lemma remove_chan_sub (ch n : nat) (l : list Chan) :
  n ∈ map chan_id (remove_chan ch l) -> n ∈ map chan_id l.
Proof.
  induction l as [|y l IH]; simpl; [tauto|].
  destruct (Nat.eqb (chan_id y) ch); simpl; intros Hin.
  - apply elem_of_cons. right. exact Hin.
  - apply elem_of_cons in Hin as [Heq | Hin]; apply elem_of_cons;
      [left; exact Heq | right; exact (IH Hin)].
Qed.

Lemma remove_chan_fresh (ch : nat) (l : list Chan) (n : nat) :
  NoDup (map chan_id l) /\ Forall (fun i => (i < n)%nat) (map chan_id l) ->
  NoDup (map chan_id (remove_chan ch l))
  /\ Forall (fun i => (i < n)%nat) (map chan_id (remove_chan ch l)).
Proof.
  induction l as [|x l IH]; simpl; [tauto|].
  intros [Hnd Hlt]. apply NoDup_cons in Hnd as [Hx Hnd].
  inversion Hlt as [|? ? Hxn Hl]; subst.
  destruct (Nat.eqb (chan_id x) ch); [split; assumption|].
  destruct (IH (conj Hnd Hl)) as [Hnd' Hlt']. simpl.
  split; [|constructor; assumption].
  apply NoDup_cons. split; [|exact Hnd'].
  intros Hin. apply Hx. exact (remove_chan_sub _ _ _ Hin).
Qed.

Lemma take_event_ids (ch : nat) (l l' : list Chan) (e : Event) :
  take_event ch l = Some (e, l') -> map chan_id l' = map chan_id l.
Proof.
  revert l'. induction l as [|c l IH]; intros l' Htake; simpl in Htake; [discriminate|].
  destruct (Nat.eqb (chan_id c) ch) eqn:Hid.
  - destruct (buffer c) as [|e' more]; [discriminate|].
    inversion Htake; subst. simpl. apply Nat.eqb_eq in Hid. rewrite Hid. reflexivity.
  - destruct (take_event ch l) as [[e' rest]|] eqn:Hrec; simpl in Htake; [|discriminate].
    inversion Htake; subst. simpl. rewrite (IH rest eq_refl). reflexivity.
Qed.

Lemma Subscribe_fresh (s s' : Sys) (out : Outcome nat) :
  Subscribe s = (out, s') -> channels_fresh s -> channels_fresh s'.
Proof.
  unfold Subscribe. unmonad. intros Heq [Hnd Hlt]. inversion Heq; subst; clear Heq.
  unfold channels_fresh, channel_ids in *. simpl. rewrite map_app. simpl.
  split.
  - apply NoDup_app. split; [exact Hnd|]. split; [|apply NoDup_singleton].
    intros n Hn Hin. apply list_elem_of_singleton in Hin. subst n.
    rewrite Forall_forall in Hlt. apply Hlt in Hn. lia.
  - apply Forall_app. split; [|repeat constructor].
    eapply Forall_impl; [exact Hlt|]. simpl. intros n Hn. lia.
Qed.

Lemma step_channels_fresh (a : Action) (s s' : Sys) (out : Outcome unit) :
  step a s = (out, s') -> channels_fresh s -> channels_fresh s'.
Proof.
  destruct a; simpl.
  - unfold handleConn. destruct (json_request line) as [req|msg].
    + destruct (String.eqb (Method req) "subscribe").
      * unfold handleSubscribe. unfold mbind at 1 2, D_bind at 1 2.
        destruct (Subscribe s) as [out0 s0] eqn:Hsub. intros Heq Hfresh.
        assert (Hout0 : exists ch, out0 = Done ch).
        { revert Hsub. unfold Subscribe. unmonad. intros Hsub; inversion Hsub; eauto. }
        destruct Hout0 as [ch ->].
        apply Subscribe_fresh in Hsub; [|exact Hfresh].
        revert Heq. unfold mbind at 1, D_bind at 1.
        destruct (Status s0) as [out1 s1] eqn:Hst.
        apply Status_keeps_channels in Hst.
        apply (keeps_channels_fresh _ _ Hst) in Hsub.
        destruct out1 as [st| |]; unmonad; intros Heq; inversion Heq; subst; exact Hsub.
      * unfold mbind, D_bind. destruct (Handle req s) as [out0 s0] eqn:Hh.
        apply Handle_keeps_channels in Hh. intros Heq Hfresh.
        apply (keeps_channels_fresh _ _ Hh) in Hfresh.
        destruct out0 as [resp| |]; revert Heq; unmonad; intros Heq; inversion Heq; subst;
          exact Hfresh.
    + unmonad. intros Heq Hfresh; inversion Heq; subst. exact Hfresh.
  - intros Hop. apply keeps_channels_fresh. exact (monitorProcess_keeps_channels _ _ _ _ _ Hop).
  - intros Hop. apply keeps_channels_fresh. exact (sample_keeps_channels _ _ _ _ _ Hop).
  - unfold forward. unmonad.
    destruct (take_event ch (subs (dmn s))) as [[e subs']|] eqn:Htake;
      intros Heq Hfresh; inversion Heq; subst; [|exact Hfresh].
    apply take_event_ids in Htake.
    unfold channels_fresh, channel_ids in *. simpl. rewrite Htake. exact Hfresh.
  - unfold Unsubscribe. unmonad. intros Heq Hfresh; inversion Heq; subst.
    unfold channels_fresh, channel_ids in *. simpl. apply remove_chan_fresh. exact Hfresh.
  - unfold Shutdown. unmonad.
    destruct (shutdown_loop _ _) as [out1 s1] eqn:Hloop.
    apply shutdown_loop_frame in Hloop as [-> Hd].
    intros Heq _. inversion Heq; subst.
    unfold channels_fresh, channel_ids. simpl. split; constructor.
Qed.

Lemma reachable_channels_fresh (s : Sys) : reachable s -> channels_fresh s.
Proof.
  induction 1 as [cfg | a s s' Hreach IH Hstep].
  - unfold boot, New. unmonad.
    destruct (RAMBudgetMB cfg =? 0); [destruct (host_mem_info []) as [total free]|];
      unfold channels_fresh, channel_ids; simpl; split; constructor.
  - exact (step_channels_fresh _ _ _ _ Hstep IH).
Qed.

(** X26. In every state the daemon can reach, Unsubscribe of a
    subscribed channel takes exactly that channel out of the subscriber
    list: the subscribers before it and after it stay, in order and with
    their buffered events, and the channel is no longer a subscriber.
    Processes, events and metrics are untouched and nothing is done to
    the host.  Unsubscribe of a channel that is not subscribed changes
    nothing, so a channel is taken out (and closed) at most once. *)
Theorem Unsubscribe_removes_that_subscriber (s : Sys) (c : Chan) :
  reachable s ->
  c ∈ subs (dmn s) ->
  exists (before after : list Chan) (s' : Sys),
    Unsubscribe (chan_id c) s = (Done tt, s')
    /\ subs (dmn s) = before ++ c :: after
    /\ subs (dmn s') = before ++ after
    /\ (chan_id c ∉ channel_ids s')
    /\ procs (dmn s') = procs (dmn s)
    /\ events (dmn s') = events (dmn s)
    /\ metrics (dmn s') = metrics (dmn s)
    /\ trace s' = trace s
    /\ Unsubscribe (chan_id c) s' = (Done tt, s').
Proof.
  intros Hreach Hin. apply reachable_channels_fresh in Hreach as [Hnd _].
  destruct (remove_chan_spec c (subs (dmn s)) Hnd Hin) as (before & after & Hl & Hrm & Hout).
  exists before, after.
  eexists. unfold Unsubscribe. unmonad.
  split; [reflexivity|]. unfold channel_ids. simpl. rewrite Hrm.
  split; [exact Hl|]. split; [reflexivity|]. split; [exact Hout|].
  do 4 (split; [reflexivity|]).
  assert (Hagain : remove_chan (chan_id c) (before ++ after) = before ++ after).
  { clear - Hout. induction (before ++ after) as [|x l IH]; simpl; [reflexivity|].
    destruct (Nat.eqb (chan_id x) (chan_id c)) eqn:Hid.
    - exfalso. apply Hout. apply elem_of_cons. left. symmetry. apply Nat.eqb_eq. exact Hid.
    - f_equal. apply IH. intros Hin. apply Hout. apply elem_of_cons. right. exact Hin. }
  rewrite Hagain. reflexivity.
Qed.

(** Serving a script of actions from a reachable state ends in a
    reachable state. *)
Lemma reachable_serve (actions : list Action) :
  forall s s' : Sys, reachable s -> script.serve actions s = Some s' -> reachable s'.
Proof.
  induction actions as [|a rest IH]; intros s s' Hreach; simpl.
  - intros Heq; inversion Heq; subst; exact Hreach.
  - destruct (step a s) as [[[]| |] s1] eqn:Hstep; try discriminate.
    apply IH. eapply reachable_step; eassumption.
Qed.

End Properties.

(** * The properties at work

    Each property is run once on the scripted host, and the claims that
    the code does not meet are refuted there. *)

Lemma C1_run_freeze_thaw_roundtrip_witness :
  let params := {| rp_Name := "a"; rp_Cmd := ["sleep"; "3600"]; rp_Dir := ""; rp_GPU := 0 |} in
  let s0 := @boot sound script.config in
  let s1 := snd (@Run sound params s0) in
  let s2 := snd (@Freeze sound "a" s1) in
  let s3 := snd (@Thaw sound "a" s2) in
  (@Run sound params s0 = (Done {| rr_Name := "a"; rr_PID := 4242 |}, s1)
   /\ @Freeze sound "a" s1 =
        (Done {| fr_Name := "a"; fr_DurationMs := 4; fr_Tier := ""; fr_MemMB := 512 |}, s2)
   /\ @Thaw sound "a" s2 =
        (Done {| tr_Name := "a"; tr_DurationMs := 4; tr_FromTier := ""; tr_MemMB := 512 |}, s3))
  /\ exists p1 p3 : Proc,
       procs (dmn s1) !! "a" = Some p1
       /\ State p1 = StateActive /\ Name p1 = "a" /\ GPU p1 = 0 /\ PID p1 = 4242
       /\ procs (dmn s3) !! "a" = Some p3
       /\ State p3 = StateActive /\ Name p3 = Name p1
       /\ PID p3 = PID p1 /\ GPU p3 = GPU p1.
Proof.
  intros params s0 s1 s2 s3.
  assert (Hrun : @Run sound params s0 = (Done {| rr_Name := "a"; rr_PID := 4242 |}, s1))
    by (vm_compute; reflexivity).
  assert (Hfreeze : @Freeze sound "a" s1 =
            (Done {| fr_Name := "a"; fr_DurationMs := 4; fr_Tier := ""; fr_MemMB := 512 |}, s2))
    by (vm_compute; reflexivity).
  assert (Hthaw : @Thaw sound "a" s2 =
            (Done {| tr_Name := "a"; tr_DurationMs := 4; tr_FromTier := ""; tr_MemMB := 512 |}, s3))
    by (vm_compute; reflexivity).
  split; [exact (conj Hrun (conj Hfreeze Hthaw))|].
  exact (@C1_run_freeze_thaw_roundtrip sound params s0 s1 s2 s3 _ _ _ Hrun Hfreeze Hthaw).
Defined.



Lemma C3_freeze_result_tier_empty_witness :
  let s := script.holding (script.entry StateActive) in
  let fr := {| fr_Name := "a"; fr_DurationMs := 4; fr_Tier := ""; fr_MemMB := 512 |} in
  let s' := snd (@Freeze sound "a" s) in
  @Freeze sound "a" s = (Done fr, s')
  /\ (fr_Name fr = "a"
      /\ (exists p : Proc, procs (dmn s') !! "a" = Some p /\ State p = StateFrozen
                           /\ fr_MemMB fr = MemMB p)
      /\ fr_Tier fr = ""
      /\ fr_Tier fr <> TierRAM).
Proof.
  intros s fr s'.
  assert (Hfreeze : @Freeze sound "a" s = (Done fr, s')) by (vm_compute; reflexivity).
  split; [exact Hfreeze|].
  exact (@C3_freeze_result_tier_empty sound "a" s s' fr Hfreeze).
Defined.

Lemma C4_thaw_failure_restops_witness :
  let p := script.entry StateFrozen in
  let s := script.holding p in
  let cont := SendSignal 4242 SIGCONT in
  let stop := SendSignal 4242 SIGSTOP in
  let restore := Exec "/usr/bin/cuda-checkpoint" ["--action"; "restore"; "--pid"; "4242"] in
  let e := ToolFailure "restore" 4242 "boom" "exit status 1" in
  (procs (dmn s) !! "a" = Some p
   /\ State p = StateFrozen
   /\ @checkpoint.Restore broken (cuda (dmn s)) (PID p) (trace s ++ [cont]) =
        ((2000000, Some e), [cont; restore]))
  /\ @Thaw broken "a" s =
       (Failed (Wrapped "cuda thaw" (Wrapped "restore" e)),
        {| dmn := dmn s; trace := [cont; restore; stop]; next_ref := next_ref s |}).
Proof.
  intros p s cont stop restore e.
  assert (Hp : procs (dmn s) !! "a" = Some p) by (vm_compute; reflexivity).
  assert (Hst : State p = StateFrozen) by reflexivity.
  assert (Hr : @checkpoint.Restore broken (cuda (dmn s)) (PID p) (trace s ++ [cont]) =
                 ((2000000, Some e), [cont; restore])) by (vm_compute; reflexivity).
  split; [exact (conj Hp (conj Hst Hr))|].
  exact (proj1 (@C4_thaw_failure_restops broken "a" s p 2000000 e [cont; restore] Hp Hst Hr)).
Defined.

Lemma C6_freeze_capability_missing_witness :
  let s := script.after (H := bare) [Line "run a"] in
  let p := {| Name := "a"; PID := 4242; State := StateActive; GPU := 0; MemMB := 0;
              Started := 103; Cmd := 0; LogPath := "/var/log/gpusched/a.log";
              logFile := Some "/var/log/gpusched/a.log" |} in
  let req := {| Method := "freeze"; Params := "a" |} in
  (procs (dmn s) !! "a" = Some p
   /\ State p = StateActive
   /\ checkpoint.Available (cuda (dmn s)) = false
   /\ Method req = "freeze"
   /\ @json_name bare (Params req) = inl {| np_Name := "a" |})
  /\ (@Freeze bare "a" s = (Failed CapabilityMissing, s)
      /\ @Error_text bare CapabilityMissing = "cuda-checkpoint not available"
      /\ @Handle bare req s = (Done (ErrResponse "cuda-checkpoint not available"), counted s)
      /\ procs (dmn (counted s)) !! "a" = Some p).
Proof.
  intros s p req.
  assert (Hp : procs (dmn s) !! "a" = Some p) by (vm_compute; reflexivity).
  assert (Hst : State p = StateActive) by reflexivity.
  assert (Hc : checkpoint.Available (cuda (dmn s)) = false) by (vm_compute; reflexivity).
  assert (Hm : Method req = "freeze") by reflexivity.
  assert (Hj : @json_name bare (Params req) = inl {| np_Name := "a" |}) by reflexivity.
  split; [exact (conj Hp (conj Hst (conj Hc (conj Hm Hj))))|].
  exact (@C6_freeze_capability_missing bare s "a" p req Hp Hst Hc Hm Hj).
Defined.

Lemma C7_kill_twice_not_found_witness :
  let s := script.holding (script.entry StateActive) in
  let s1 := snd (@Kill sound "a" s) in
  @Kill sound "a" s = (Done tt, s1)
  /\ (procs (dmn s1) !! "a" = None
      /\ @Kill sound "a" s1 = (Failed (NotFound "a"), s1)
      /\ @Error_text sound (NotFound "a") = "process " +:+ @quote sound "a" +:+ " not found").
Proof.
  intros s s1.
  assert (Hkill : @Kill sound "a" s = (Done tt, s1)) by (vm_compute; reflexivity).
  split; [exact Hkill|].
  exact (@C7_kill_twice_not_found sound "a" s s1 Hkill).
Defined.




Lemma C10_migrate_any_state_witness :
  let p := script.entry StateFrozen in
  let s := script.holding p in
  let params := {| mp_Name := "a"; mp_GPU := 1 |} in
  procs (dmn s) !! "a" = Some p
  /\ let '(out, s') := @Migrate sound params s in
     (forall e : error, out = Failed e -> wrong_state e = false)
     /\ (State p <> StateActive ->
         exists new : Trace,
           trace s' = trace s ++ new
           /\ forallb (fun e => negb (checkpoint_step e)) new = true)
     /\ (forall r : MigrateResult, out = Done r ->
         exists p' : Proc,
           procs (dmn s') !! "a" = Some p'
           /\ State p' = StateActive /\ GPU p' = 1
           /\ Name p' = Name p /\ PID p' = PID p)
     /\ (State p <> StateActive ->
         forall (dur unlDur : Z) (tr1 tr2 : Trace),
           @checkpoint.RestoreOnDevice sound (cuda (dmn s)) (PID p) 1
             (trace s ++ [SendSignal (PID p) SIGCONT]) = ((dur, None), tr1) ->
           @checkpoint.Unlock sound (cuda (dmn s)) (PID p) tr1 = ((unlDur, None), tr2) ->
           out = Done {| mr_Name := "a"; FromGPU := GPU p; ToGPU := 1 |}
           /\ procs (dmn s') =
                <["a" := set_GPU 1 (set_State StateActive p)]> (procs (dmn s))).
Proof.
  intros p s params.
  assert (Hp : procs (dmn s) !! "a" = Some p) by (vm_compute; reflexivity).
  exact (conj Hp (@C10_migrate_any_state sound params s p Hp)).
Defined.

(** ** The further properties at work *)

Lemma adapter_unavailable_invokes_nothing_witness :
  let c := {| checkpoint.Binary := ""; checkpoint.Available := false |} in
  checkpoint.Available c = false
  /\ @checkpoint.Freeze sound c 4242 [] = ((0, Some (Wrapped "lock" CapabilityMissing)), [])
  /\ @checkpoint.Thaw sound c 4242 [] = ((0, Some (Wrapped "restore" CapabilityMissing)), []).
Proof.
  intros c.
  assert (Ha : checkpoint.Available c = false) by reflexivity.
  destruct (@adapter_unavailable_invokes_nothing sound c 4242 1 [] Ha)
    as (_ & _ & _ & _ & _ & Hfreeze & Hthaw & _).
  exact (conj Ha (conj Hfreeze Hthaw)).
Defined.

Lemma Run_refusals_have_no_effect_witness :
  let params := {| rp_Name := "a"; rp_Cmd := ["sleep"; "3600"]; rp_Dir := ""; rp_GPU := 0 |} in
  let again := {| rp_Name := "a"; rp_Cmd := ["true"]; rp_Dir := "/tmp"; rp_GPU := 1 |} in
  let s := @boot sound script.config in
  let s1 := snd (@Run sound params s) in
  @Run sound params s = (Done {| rr_Name := "a"; rr_PID := 4242 |}, s1)
  /\ @Run sound again s1 = (Failed (AlreadyExists "a"), s1).
Proof.
  intros params again s s1.
  assert (Hrun : @Run sound params s = (Done {| rr_Name := "a"; rr_PID := 4242 |}, s1))
    by (vm_compute; reflexivity).
  split; [exact Hrun|].
  exact (proj1 (@Run_refusals_have_no_effect sound params again s s1 _ Hrun) eq_refl).
Defined.

Lemma Kill_removes_the_entry_only_witness :
  let p := script.entry StateFrozen in
  let s := script.holding p in
  procs (dmn s) !! "a" = Some p
  /\ exists s' : Sys,
       @Kill sound "a" s = (Done tt, s')
       /\ procs (dmn s') = delete "a" (procs (dmn s))
       /\ trace s' = [SendSignal 4242 SIGCONT; SendSignal 4242 SIGTERM; GraceKill 4242;
                      Close "/var/log/gpusched/a.log"; Now].
Proof.
  intros p s.
  assert (Hp : procs (dmn s) !! "a" = Some p) by (vm_compute; reflexivity).
  split; [exact Hp|].
  destruct (@Kill_removes_the_entry_only sound "a" s p Hp)
    as (s' & Hkill & Hprocs & _ & Htrace & _).
  exists s'. exact (conj Hkill (conj Hprocs Htrace)).
Defined.

Lemma Freeze_failure_keeps_the_entry_active_witness :
  let p := script.entry StateActive in
  let s := script.holding p in
  let e := Wrapped "checkpoint" (ToolFailure "checkpoint" 4242 "boom" "exit status 1") in
  let tr1 := [GPUMem 4242;
              Exec "/usr/bin/cuda-checkpoint" ["--action"; "lock"; "--pid"; "4242"];
              Exec "/usr/bin/cuda-checkpoint" ["--action"; "checkpoint"; "--pid"; "4242"];
              Exec "/usr/bin/cuda-checkpoint" ["--action"; "unlock"; "--pid"; "4242"]] in
  (procs (dmn s) !! "a" = Some p
   /\ State p = StateActive
   /\ checkpoint.Available (cuda (dmn s)) = true
   /\ @checkpoint.Freeze stuck (cuda (dmn s)) (PID p) (trace s ++ [GPUMem (PID p)]) =
        ((4000000, Some e), tr1))
  /\ exists s' : Sys,
       @Freeze stuck "a" s = (Failed (Wrapped "cuda freeze" e), s')
       /\ metrics (dmn s') = metrics (dmn s)
       /\ events (dmn s') = events (dmn s)
       /\ trace s' = tr1.
Proof.
  intros p s e tr1.
  assert (Hp : procs (dmn s) !! "a" = Some p) by (vm_compute; reflexivity).
  assert (Hst : State p = StateActive) by reflexivity.
  assert (Ha : checkpoint.Available (cuda (dmn s)) = true) by reflexivity.
  assert (Hf : @checkpoint.Freeze stuck (cuda (dmn s)) (PID p) (trace s ++ [GPUMem (PID p)]) =
                 ((4000000, Some e), tr1)) by (vm_compute; reflexivity).
  split; [exact (conj Hp (conj Hst (conj Ha Hf)))|].
  destruct (@Freeze_failure_keeps_the_entry_active stuck "a" s p 4000000 e tr1 Hp Hst Ha Hf)
    as (s' & Hfreeze & _ & _ & Hm & Hev & _ & Htrace).
  exists s'. exact (conj Hfreeze (conj Hm (conj Hev Htrace))).
Defined.

Lemma repeated_freeze_or_thaw_is_refused_witness :
  let s := script.holding (script.entry StateActive) in
  let fr := {| fr_Name := "a"; fr_DurationMs := 4; fr_Tier := ""; fr_MemMB := 512 |} in
  let s1 := snd (@Freeze sound "a" s) in
  @Freeze sound "a" s = (Done fr, s1)
  /\ @Freeze sound "a" s1 = (Failed (WrongState "a" StateFrozen "active"), s1).
Proof.
  intros s fr s1.
  assert (Hfreeze : @Freeze sound "a" s = (Done fr, s1)) by (vm_compute; reflexivity).
  split; [exact Hfreeze|].
  exact (proj1 (@repeated_freeze_or_thaw_is_refused sound "a" s s1 fr Hfreeze)).
Defined.

Lemma serving_is_reachable_example :
  @reachable sound (script.after (H := sound) [Line "subscribe"; Line "run a"; Line "freeze a"]).
Proof.
  apply (@reachable_serve sound [Line "subscribe"; Line "run a"; Line "freeze a"]
           (@boot sound script.config) _ (@reachable_boot sound script.config)).
  vm_compute. reflexivity.
Defined.

Lemma entries_are_registered_under_their_name_witness :
  let s := script.after (H := sound) [Line "subscribe"; Line "run a"; Line "freeze a"] in
  let p := {| Name := "a"; PID := 4242; State := StateFrozen; GPU := 0; MemMB := 512;
              Started := 107; Cmd := 1; LogPath := "/var/log/gpusched/a.log";
              logFile := Some "/var/log/gpusched/a.log" |} in
  (@reachable sound s /\ procs (dmn s) !! "a" = Some p) /\ Name p = "a".
Proof.
  intros s p.
  assert (Hp : procs (dmn s) !! "a" = Some p) by (vm_compute; reflexivity).
  split; [exact (conj serving_is_reachable_example Hp)|].
  exact (@entries_are_registered_under_their_name sound s "a" p
           serving_is_reachable_example Hp).
Defined.



Lemma averages_are_the_means_witness :
  let s := script.after (H := sound) [Line "subscribe"; Line "run a"; Line "freeze a"] in
  @reachable sound s
  /\ AvgFreezeMs (metrics (dmn s)) = mean (freezeTotalMs (dmn s)) (Freezes (metrics (dmn s)))
  /\ AvgThawMs (metrics (dmn s)) = mean (thawTotalMs (dmn s)) (Thaws (metrics (dmn s))).
Proof.
  intros s.
  exact (conj serving_is_reachable_example
              (@averages_are_the_means sound s serving_is_reachable_example)).
Defined.

Lemma Status_reports_the_registry_witness :
  let s := script.after (H := sound) [Line "subscribe"; Line "run a"; Line "freeze a"] in
  exists (r : StatusResult) (s' : Sys),
    (@reachable sound s /\ @Status sound s = (Done r, s'))
    /\ Permutation (map pi_Name (Processes r)) (map fst (map_to_list (procs (dmn s))))
    /\ Forall (fun i => exists p : Proc,
                  procs (dmn s) !! pi_Name i = Some p /\ reports p i)
              (Processes r).
Proof.
  intros s.
  assert (Hst : exists r s', @Status sound s = (Done r, s'))
    by (eexists; eexists; vm_compute; reflexivity).
  destruct Hst as (r & s' & Hst).
  exists r, s'.
  split; [exact (conj serving_is_reachable_example Hst)|].
  exact (@Status_reports_the_registry sound s s' r serving_is_reachable_example Hst).
Defined.

Lemma Status_carries_the_recent_events_witness :
  let s := script.after (H := sound) [Line "run a"; Line "freeze a"] in
  exists (r : StatusResult) (s' : Sys),
    @Status sound s = (Done r, s')
    /\ Events r `suffix_of` events (dmn s)
    /\ length (Events r) = Nat.min (length (events (dmn s))) 20
    /\ sr_Metrics r = metrics (dmn s)
    /\ HostRAMBudgetMB (Memory r) = RAMBudgetMB (cfg (dmn s))
    /\ CUDACheckpoint (Caps r) = checkpoint.Available (cuda (dmn s)).
Proof.
  intros s.
  assert (Hst : exists r s', @Status sound s = (Done r, s'))
    by (eexists; eexists; vm_compute; reflexivity).
  destruct Hst as (r & s' & Hst).
  exists r, s'.
  split; [exact Hst|].
  exact (@Status_carries_the_recent_events sound s s' r Hst).
Defined.

Lemma Logs_returns_the_last_lines_witness :
  let p := script.entry StateActive in
  let s := script.holding p in
  procs (dmn s) !! "a" = Some p
  /\ exists out : list string,
       @Logs logged "a" 2 s =
         (Done {| Lines := out |},
          {| dmn := dmn s; trace := [ReadFile "/var/log/gpusched/a.log"]; next_ref := 1 |})
       /\ out `suffix_of` ["one"; "two"; "three"]
       /\ length out = 2%nat.
Proof.
  intros p s.
  assert (Hp : procs (dmn s) !! "a" = Some p) by (vm_compute; reflexivity).
  split; [exact Hp|].
  exact (proj1 (@Logs_returns_the_last_lines logged "a" 2 s p Hp)).
Defined.

Lemma subscriber_receives_the_run_event_witness :
  let params := {| rp_Name := "a"; rp_Cmd := ["sleep"; "3600"]; rp_Dir := ""; rp_GPU := 0 |} in
  let s := @boot sound script.config in
  let s1 := snd (Subscribe s) in
  let s2 := snd (@Run sound params s1) in
  (Subscribe s = (Done 0%nat, s1)
   /\ @Run sound params s1 = (Done {| rr_Name := "a"; rr_PID := 4242 |}, s2))
  /\ exists ev : Event,
       Type_ ev = "run" /\ Process ev = "a"
       /\ last (subs (dmn s2)) = Some {| chan_id := 0; buffer := [ev] |}
       /\ last (events (dmn s2)) = Some ev.
Proof.
  intros params s s1 s2.
  assert (Hsub : Subscribe s = (Done 0%nat, s1)) by (vm_compute; reflexivity).
  assert (Hrun : @Run sound params s1 = (Done {| rr_Name := "a"; rr_PID := 4242 |}, s2))
    by (vm_compute; reflexivity).
  split; [exact (conj Hsub Hrun)|].
  destruct (@subscriber_receives_the_run_event sound params s s1 s2 0%nat _ Hsub Hrun)
    as (ev & Hty & Hproc & _ & Hlast & Hev).
  exists ev. exact (conj Hty (conj Hproc (conj Hlast Hev))).
Defined.

Lemma handleConn_answers_every_line_witness :
  let s := @boot sound script.config in
  let s' := snd (@handleConn sound "kill ghost" s) in
  @handleConn sound "kill ghost" s = (Done tt, s')
  /\ exists (before : Trace) (resp : Response),
       trace s' = before ++ [ConnWrite (WResponse resp)] /\ well_shaped resp.
Proof.
  intros s s'.
  assert (Hserve : @handleConn sound "kill ghost" s = (Done tt, s'))
    by (vm_compute; reflexivity).
  split; [exact Hserve|].
  exact (proj1 (proj2 (@handleConn_answers_every_line sound "kill ghost" s s' (Done tt) Hserve))
           eq_refl).
Defined.

Lemma operations_touch_one_entry_witness :
  let s := script.after (H := sound) [Line "run a"; Line "run b"] in
  let s' := snd (@Kill sound "a" s) in
  ("b" <> "a" /\ @Kill sound "a" s = (Done tt, s'))
  /\ procs (dmn s') !! "b" = procs (dmn s) !! "b".
Proof.
  intros s s'.
  assert (Hne : "b" <> "a") by discriminate.
  assert (Hkill : @Kill sound "a" s = (Done tt, s')) by (vm_compute; reflexivity).
  split; [exact (conj Hne Hkill)|].
  apply (@operations_touch_one_entry sound "a" "b" s s' Hne).
  right; right; right; left. exists (Done tt). exact Hkill.
Defined.

Lemma Freeze_steps_in_order_witness :
  let p := script.entry StateActive in
  let s := script.holding p in
  let fr := {| fr_Name := "a"; fr_DurationMs := 4; fr_Tier := ""; fr_MemMB := 512 |} in
  let s' := snd (@Freeze sound "a" s) in
  @Freeze sound "a" s = (Done fr, s')
  /\ exists p : Proc,
       procs (dmn s) !! "a" = Some p
       /\ trace s' =
            trace s ++ [GPUMem (PID p);
                        invoke (cuda (dmn s)) "lock" (PID p);
                        invoke (cuda (dmn s)) "checkpoint" (PID p);
                        SendSignal (PID p) SIGSTOP; Now]
       /\ Freezes (metrics (dmn s')) = Go.incr (Freezes (metrics (dmn s)))
       /\ freezeTotalMs (dmn s') = Go.add64 (freezeTotalMs (dmn s)) (fr_DurationMs fr)
       /\ Thaws (metrics (dmn s')) = Thaws (metrics (dmn s)).
Proof.
  intros p s fr s'.
  assert (Hfreeze : @Freeze sound "a" s = (Done fr, s')) by (vm_compute; reflexivity).
  split; [exact Hfreeze|].
  exact (@Freeze_steps_in_order sound "a" s s' fr Hfreeze).
Defined.

Lemma Thaw_steps_in_order_witness :
  let p := script.entry StateFrozen in
  let s := script.holding p in
  let tr := {| tr_Name := "a"; tr_DurationMs := 4; tr_FromTier := ""; tr_MemMB := 300 |} in
  let s' := snd (@Thaw sound "a" s) in
  @Thaw sound "a" s = (Done tr, s')
  /\ exists p : Proc,
       procs (dmn s) !! "a" = Some p
       /\ trace s' =
            trace s ++ [SendSignal (PID p) SIGCONT;
                        invoke (cuda (dmn s)) "restore" (PID p);
                        invoke (cuda (dmn s)) "unlock" (PID p); Now]
       /\ Thaws (metrics (dmn s')) = Go.incr (Thaws (metrics (dmn s)))
       /\ thawTotalMs (dmn s') = Go.add64 (thawTotalMs (dmn s)) (tr_DurationMs tr)
       /\ Freezes (metrics (dmn s')) = Freezes (metrics (dmn s))
       /\ tr_Name tr = Name p /\ tr_MemMB tr = MemMB p.
Proof.
  intros p s tr s'.
  assert (Hthaw : @Thaw sound "a" s = (Done tr, s')) by (vm_compute; reflexivity).
  split; [exact Hthaw|].
  exact (@Thaw_steps_in_order sound "a" s s' tr Hthaw).
Defined.

Lemma Migrate_steps_in_order_witness :
  let p := script.entry StateActive in
  let s := script.holding p in
  let params := {| mp_Name := "a"; mp_GPU := 1 |} in
  let r := {| mr_Name := "a"; FromGPU := 0; ToGPU := 1 |} in
  let s' := snd (@Migrate sound params s) in
  (procs (dmn s) !! "a" = Some p
   /\ State p = StateActive
   /\ @Migrate sound params s = (Done r, s'))
  /\ trace s' =
       [GPUMem 4242;
        Exec "/usr/bin/cuda-checkpoint" ["--action"; "lock"; "--pid"; "4242"];
        Exec "/usr/bin/cuda-checkpoint" ["--action"; "checkpoint"; "--pid"; "4242"];
        SendSignal 4242 SIGSTOP; SendSignal 4242 SIGCONT;
        Exec "/usr/bin/cuda-checkpoint"
          ["--action"; "restore"; "--pid"; "4242"; "--device"; "1"];
        Exec "/usr/bin/cuda-checkpoint" ["--action"; "unlock"; "--pid"; "4242"];
        Now]
  /\ Migrations (metrics (dmn s')) = 1.
Proof.
  intros p s params r s'.
  assert (Hp : procs (dmn s) !! "a" = Some p) by (vm_compute; reflexivity).
  assert (Hst : State p = StateActive) by reflexivity.
  assert (Hmig : @Migrate sound params s = (Done r, s')) by (vm_compute; reflexivity).
  split; [exact (conj Hp (conj Hst Hmig))|].
  destruct (@Migrate_steps_in_order sound params s s' p r Hp Hst Hmig)
    as (Htrace & _ & Hcount & _).
  exact (conj Htrace Hcount).
Defined.

Lemma Status_sums_the_frozen_memory_witness :
  let s := script.after (H := sound) [Line "run a"; Line "freeze a"] in
  exists (r : StatusResult) (s' : Sys),
    @Status sound s = (Done r, s')
    /\ SnapshotsMB (Memory r) = Go.wrap64 (frozen_mem (Processes r))
    /\ DiskUsedMB (Memory r) = 0 /\ DiskBudgetMB (Memory r) = 0.
Proof.
  intros s.
  assert (Hst : exists r s', @Status sound s = (Done r, s'))
    by (eexists; eexists; vm_compute; reflexivity).
  destruct Hst as (r & s' & Hst).
  exists r, s'.
  split; [exact Hst|].
  exact (@Status_sums_the_frozen_memory sound s s' r Hst).
Defined.

Lemma Unsubscribe_removes_that_subscriber_witness :
  let s := script.after (H := sound) [Line "subscribe"; Line "run a"; Line "freeze a"] in
  let c := {| chan_id := 0;
              buffer := [{| Time := 108; Type_ := "run"; Process := "a";
                            Detail := "pid=4242 gpu=0 cmd=[sleep 3600]"; Duration := 0 |};
                         {| Time := 114; Type_ := "freeze"; Process := "a";
                            Detail := "→ RAM (512 MB)"; Duration := 4 |}] |} in
  (@reachable sound s /\ c ∈ subs (dmn s))
  /\ exists (before after : list Chan) (s' : Sys),
       Unsubscribe 0 s = (Done tt, s')
       /\ subs (dmn s) = before ++ c :: after
       /\ subs (dmn s') = before ++ after
       /\ (0%nat ∉ channel_ids s').
Proof.
  intros s c.
  assert (Hsubs : subs (dmn s) = [c]) by (vm_compute; reflexivity).
  assert (Hc : c ∈ subs (dmn s)) by (rewrite Hsubs; left).
  split; [exact (conj serving_is_reachable_example Hc)|].
  destruct (@Unsubscribe_removes_that_subscriber sound s c serving_is_reachable_example Hc)
    as (before & after & s' & Hun & Hl & Hl' & Hout & _).
  exists before, after, s'. exact (conj Hun (conj Hl (conj Hl' Hout))).
Defined.

Lemma Handle_rejects_before_the_registry_witness :
  let req := {| Method := "fork"; Params := "a" |} in
  let s := @boot sound script.config in
  (Method req ∉ ["run"; "freeze"; "thaw"; "kill"; "migrate"; "status"; "logs"])
  /\ @Handle sound req s = (Done (ErrResponse "unknown method: fork"), counted s).
Proof.
  intros req s.
  assert (Hm : Method req ∉ ["run"; "freeze"; "thaw"; "kill"; "migrate"; "status"; "logs"])
    by (apply (bool_decide_unpack _); vm_compute; reflexivity).
  split; [exact Hm|].
  destruct (@Handle_rejects_before_the_registry sound req s "") as (_ & _ & _ & _ & _ & _ & Hu).
  exact (Hu Hm).
Defined.
